(** * SimpleAssetLibrary: a shallow embedding of the Blueprint function library

    The plugin's functions live in
    [Source/SimpleAssetLibrary/Private/SimpleAssetLibraryBPLibrary.cpp].
    Each one is a short sequence of calls into the editor.  The editor
    itself is not part of the plugin, so every engine entry point the plugin
    calls is a field of a record of oracles ([Engine], [Editor]); the
    plugin's own control flow, its reference parameters and the null tests
    it does or does not make are written out. *)

From Stdlib Require Import ZArith Ascii String List Bool Lia.
From Stdlib.Strings Require Import Byte.
From stdpp Require Import base gmap sets list strings.

Local Open Scope string_scope.
Local Open Scope Z_scope.

(** ** Engine strings and names *)

(** [FString::operator==] and [operator!=] compare with [Stricmp]: letter
    case is ignored. *)
Definition ToLower (c : ascii) : ascii :=
  let n := nat_of_ascii c in
  if (Nat.leb 65 n && Nat.leb n 90)%bool then ascii_of_nat (n + 32) else c.

Fixpoint ToLowerString (s : string) : string :=
  match s with
  | EmptyString => EmptyString
  | String c r => String (ToLower c) (ToLowerString r)
  end.

Definition FString_eq (a b : string) : bool :=
  String.eqb (ToLowerString a) (ToLowerString b).

(** [FName] is an engine type: an interned name with its own equality.  The
    plugin uses [IsNone], [ToString] and the constructor from text. *)
Class FNameTable := {
  FName : Type;
  FName_eq_dec :: EqDecision FName;
  FName_countable :: Countable FName;
  IsNone : FName → bool;
  ToString : FName → string;
  MakeFName : string → FName
}.

(** A table in which a name is its text, the empty text standing for None
    as in the engine; used to run the model on concrete inputs.  Two names
    are the same when their texts are, so the table stands for the engine's
    only on inputs in which no two names differ by letter case alone. *)
Definition TextNames : FNameTable := {|
  FName := string;
  IsNone := fun n => FString_eq n "None" || String.eqb n "";
  ToString := fun n => if String.eqb n "" then "None" else n;
  MakeFName := fun s => s
|}.

(** ** RegisterMetadataTags (lines 79-93) *)

Section MetadataTags.
Context `{FNameTable}.

(** One iteration of the loop body on the global [TSet<FName>]. *)
Definition RegisterTag (Tag : FName) (GlobalTagsForAssetRegistry : gset FName)
  : gset FName :=
  if negb (IsNone Tag) then
    if negb (bool_decide (Tag ∈ GlobalTagsForAssetRegistry)) then
      {[ Tag ]} ∪ GlobalTagsForAssetRegistry
    else GlobalTagsForAssetRegistry
  else GlobalTagsForAssetRegistry.

(** [for (FName Tag : Tags)] over the set returned by
    [UObject::GetMetaDataTagsForAssetRegistry()]. *)
Fixpoint RegisterMetadataTags (Tags : list FName)
    (GlobalTagsForAssetRegistry : gset FName) : gset FName :=
  match Tags with
  | [] => GlobalTagsForAssetRegistry
  | Tag :: rest =>
      RegisterMetadataTags rest (RegisterTag Tag GlobalTagsForAssetRegistry)
  end.

(** The tags of the input that the loop lets through. *)
Definition NamedTags (Tags : list FName) : gset FName :=
  list_to_set (List.filter (fun t => negb (IsNone t)) Tags).

End MetadataTags.

(** ** Thumbnails, textures and the dynamic material *)

(** [FObjectThumbnail], read through its three getters. *)
Record FObjectThumbnail := {
  GetImageWidth : Z;
  GetImageHeight : Z;
  GetUncompressedImageData : list byte
}.

(** A [UTexture2D] object: its identity among the textures, its size, the
    bulk data of [Mips[0]] and the flag the plugin sets on it. *)
Record UTexture2D := {
  ObjectId : nat;
  SizeX : Z;
  SizeY : Z;
  Mip0 : list byte;
  bNotOfflineProcessed : bool
}.

(** [FMemory::Memcpy(Dest, Src, Count)] on a locked mip, whose size is the
    length of [Dest].  The copy does not look at that size: the bytes that
    fit replace the start of the mip, which keeps its length, and the bytes
    beyond its end are written past the buffer.  The result is the mip after
    the copy and the bytes that went past it. *)
Definition Memcpy (Dest Src : list byte) (Count : nat)
  : list byte * list byte :=
  (firstn (length Dest) (firstn Count Src ++ skipn Count Dest),
   skipn (length Dest) (firstn Count Src)).

(** The steps of one resolution, in source order.  They are recorded in the
    frame as the function runs; nothing reads them back. *)
Inductive Step :=
| CheckStorage (found : bool)        (* lines 166-170 *)
| TryRegenerate (usable : bool)      (* lines 174-185 *)
| TryAllocate (allocated : bool)     (* lines 188-191 *)
| BindGenerated                      (* lines 195-206 *)
| RecheckStorage (found : bool)      (* line 217, line 114 *)
| LoadCached (found : bool)          (* lines 219-221, 116-118 *)
| BindCached                         (* lines 223-241, 120-136 *)
| UseDefault.                        (* line 245, line 139 *)

(** Position of a step in the chain. *)
Definition rank (st : Step) : nat :=
  match st with
  | CheckStorage _ => 0
  | TryRegenerate _ => 1
  | TryAllocate _ => 2
  | BindGenerated => 3
  | RecheckStorage _ => 4
  | LoadCached _ => 5
  | BindCached => 6
  | UseDefault => 7
  end%nat.

(** The steps that bind a texture to the material. *)
Definition binds (st : Step) : bool :=
  match st with
  | BindGenerated | BindCached | UseDefault => true
  | _ => false
  end.

(** A list of steps only moves forward in the chain. *)
Fixpoint forward_only (steps : list Step) : bool :=
  match steps with
  | [] => true
  | st :: rest =>
      forallb (fun st' => Nat.ltb (rank st) (rank st')) rest
      && forward_only rest
  end.

(** The chain of the resolver as a list of steps, from the four tests that
    decide it: storage, usable live thumbnail, allocation, cached lookup. *)
Definition Chain (found usable allocated cached : bool) : list Step :=
  if found then
    CheckStorage true :: TryRegenerate usable :: TryAllocate allocated ::
      (if usable && allocated then [BindGenerated]
       else RecheckStorage true :: LoadCached cached ::
              (if cached then [BindCached] else []))
  else [CheckStorage false; RecheckStorage false; UseDefault].

(** The last step binds a texture. *)
Definition ends_with_bind (steps : list Step) : bool :=
  match last steps with
  | Some st => binds st
  | None => false
  end.

(** A null pointer that is dereferenced. *)
Inductive Fault := NullThumbnail | NullTexture.

Section Thumbnails.
Context `{FNameTable}.

(** The part of [FAssetData] the plugin reads. *)
Record FAssetData := {
  PackageName : FName;
  GetFullName : string
}.

(** [UMaterialInstanceDynamic]: its texture parameter overrides.  A bound
    value is a [UTexture2D*], which may be null. *)
Record UMaterialInstanceDynamic := {
  TextureParameterValues : gmap FName (option UTexture2D)
}.

(** The engine entry points the two thumbnail functions call.
    - [DoesPackageExist] gives the package file name when it succeeds;
    - [GetAsset] loads the asset and gives the object (a handle the plugin
      only passes on to the renderer, or null);
    - [CanCreateTransient] tells whether [UTexture2D::CreateTransient]
      returns a texture for the given size in [PF_B8G8R8A8];
    - [LoadThumbnailsFromPackage] fills a fresh [FThumbnailMap];
    - [PNGCompress] is [SetRaw] followed by [GetCompressed];
    - [DecodeBuffer] is the decoding done by
      [FImageUtils::ImportBufferAsTexture2D] (null when it fails). *)
Record Engine := {
  DoesPackageExist : string → option string;
  GetAsset : FAssetData → option nat;
  GenerateThumbnailForObjectToSaveToDisk : option nat → option FObjectThumbnail;
  CanCreateTransient : Z → Z → bool;
  LoadThumbnailsFromPackage : string → gset FName → gmap FName FObjectThumbnail;
  PNGCompress : list byte → Z → Z → list byte;
  DecodeBuffer : list byte → option (Z * Z * list byte)
}.

(** What a call works on: the three reference parameters ([int32] values
    are kept as integers; the code only compares them with 1), the material
    behind the [DynamicMaterial] pointer (the header asks for a material
    with a [texture] parameter), the textures of the object heap, the bytes
    written past the end of a mip, and the record of steps taken.

    [NextObject] is the identity that the next texture made by
    [UTexture2D::CreateTransient] or [FImageUtils::ImportBufferAsTexture2D]
    takes; it tells the textures of a run apart and orders them by creation.
    Objects the engine makes on its own, such as those [GetAsset] brings in
    when it loads the asset, are not textures the plugin handles and take no
    identity here.  [RootSet] holds the identities passed to [AddToRoot]. *)
Record Frame := {
  ImageWidth : Z;
  ImageHeight : Z;
  IsValid : bool;
  DynamicMaterial : UMaterialInstanceDynamic;
  NextObject : nat;
  RootSet : list nat;
  Steps : list Step;
  PastTheMip : list byte
}.

Inductive Res (A : Type) :=
| Ok (a : A) (s : Frame)
| Crash (f : Fault) (s : Frame).
Arguments Ok {A} a s.
Arguments Crash {A} f s.

Definition M (A : Type) : Type := Frame → Res A.

Definition ret {A} (a : A) : M A := fun s => Ok a s.

Definition bind {A B} (c : M A) (k : A → M B) : M B :=
  fun s => match c s with
           | Ok a s' => k a s'
           | Crash f s' => Crash f s'
           end.

Definition crash {A} (f : Fault) : M A := fun s => Crash f s.

Definition get : M Frame := fun s => Ok s s.

Definition modify (g : Frame → Frame) : M unit := fun s => Ok tt (g s).

(** The frame in which a call ended, whether it returned or not. *)
Definition frame_of {A} (r : Res A) : Frame :=
  match r with Ok _ s => s | Crash _ s => s end.

Definition returned {A} (r : Res A) : bool :=
  match r with Ok _ _ => true | Crash _ _ => false end.

Notation "'do' x <- c ; k" := (bind c (fun x => k))
  (at level 10, x name, c at level 100, k at level 200, only parsing).
Notation "'run' c ; k" := (bind c (fun _ => k))
  (at level 10, c at level 100, k at level 200, only parsing).

(** *** Frame updates *)

Definition SetImageWidth (v : Z) : M unit :=
  modify (fun s => {| ImageWidth := v; ImageHeight := ImageHeight s;
                      IsValid := IsValid s;
                      DynamicMaterial := DynamicMaterial s;
                      NextObject := NextObject s; RootSet := RootSet s;
                      Steps := Steps s;
                      PastTheMip := PastTheMip s |}).

Definition SetImageHeight (v : Z) : M unit :=
  modify (fun s => {| ImageWidth := ImageWidth s; ImageHeight := v;
                      IsValid := IsValid s;
                      DynamicMaterial := DynamicMaterial s;
                      NextObject := NextObject s; RootSet := RootSet s;
                      Steps := Steps s;
                      PastTheMip := PastTheMip s |}).

Definition SetIsValid (v : bool) : M unit :=
  modify (fun s => {| ImageWidth := ImageWidth s;
                      ImageHeight := ImageHeight s; IsValid := v;
                      DynamicMaterial := DynamicMaterial s;
                      NextObject := NextObject s; RootSet := RootSet s;
                      Steps := Steps s;
                      PastTheMip := PastTheMip s |}).

(** [DynamicMaterial->SetTextureParameterValue(Name, Value)]. *)
Definition SetTextureParameterValue (ParameterName : string)
    (Value : option UTexture2D) : M unit :=
  modify (fun s => {| ImageWidth := ImageWidth s;
                      ImageHeight := ImageHeight s; IsValid := IsValid s;
                      DynamicMaterial :=
                        {| TextureParameterValues :=
                             <[ MakeFName ParameterName := Value ]>
                               (TextureParameterValues (DynamicMaterial s)) |};
                      NextObject := NextObject s; RootSet := RootSet s;
                      Steps := Steps s;
                      PastTheMip := PastTheMip s |}).

(** A new texture takes the next identity. *)
Definition NewObject : M nat :=
  fun s => Ok (NextObject s)
              {| ImageWidth := ImageWidth s; ImageHeight := ImageHeight s;
                 IsValid := IsValid s;
                 DynamicMaterial := DynamicMaterial s;
                 NextObject := S (NextObject s); RootSet := RootSet s;
                 Steps := Steps s;
                      PastTheMip := PastTheMip s |}.

(** [Object->AddToRoot()]. *)
Definition AddToRoot (id : nat) : M unit :=
  modify (fun s => {| ImageWidth := ImageWidth s;
                      ImageHeight := ImageHeight s; IsValid := IsValid s;
                      DynamicMaterial := DynamicMaterial s;
                      NextObject := NextObject s;
                      RootSet := id :: RootSet s;
                      Steps := Steps s;
                      PastTheMip := PastTheMip s |}).

(** Bytes that a copy wrote beyond the end of a mip. *)
Definition WritePastMip (bytes : list byte) : M unit :=
  modify (fun s => {| ImageWidth := ImageWidth s;
                      ImageHeight := ImageHeight s; IsValid := IsValid s;
                      DynamicMaterial := DynamicMaterial s;
                      NextObject := NextObject s; RootSet := RootSet s;
                      Steps := Steps s;
                      PastTheMip := PastTheMip s ++ bytes |}).

Definition note (st : Step) : M unit :=
  modify (fun s => {| ImageWidth := ImageWidth s;
                      ImageHeight := ImageHeight s; IsValid := IsValid s;
                      DynamicMaterial := DynamicMaterial s;
                      NextObject := NextObject s; RootSet := RootSet s;
                      Steps := Steps s ++ [st];
                      PastTheMip := PastTheMip s |}).

(** The texture bound to the material's [texture] parameter, if any. *)
Definition BoundTexture (s : Frame) : option (option UTexture2D) :=
  TextureParameterValues (DynamicMaterial s) !! MakeFName "texture".

(** *** The calls into the engine *)

Variable E : Engine.

(** [Name.ToString() != "None" && FPackageName::DoesPackageExist(Name.ToString(), &PackageFilename)]:
    the answer, and the file name variable after the test. *)
Definition PackageExists (AssetData : FAssetData) (PackageFilename : string)
  : bool * string :=
  if negb (FString_eq (ToString (PackageName AssetData)) "None") then
    match DoesPackageExist E (ToString (PackageName AssetData)) with
    | Some file => (true, file)
    | None => (false, PackageFilename)
    end
  else (false, PackageFilename).

(** The package file of an asset, when its name is not None and the
    package is on disk. *)
Definition PackageFile (AssetData : FAssetData) : option string :=
  if negb (FString_eq (ToString (PackageName AssetData)) "None") then
    DoesPackageExist E (ToString (PackageName AssetData))
  else None.

(** The thumbnail the engine renders from the live asset. *)
Definition LiveThumbnail (AssetData : FAssetData) : option FObjectThumbnail :=
  GenerateThumbnailForObjectToSaveToDisk E (GetAsset E AssetData).

(** The thumbnail found for the asset in a package file. *)
Definition CachedThumbnail (AssetData : FAssetData) (PackageFilename : string)
  : option FObjectThumbnail :=
  LoadThumbnailsFromPackage E PackageFilename
    {[ MakeFName (GetFullName AssetData) ]}
  !! MakeFName (GetFullName AssetData).

(** Whether the live thumbnail is usable and its transient texture can be
    allocated: the tests of lines 177-191 taken together. *)
Definition Regenerates (AssetData : FAssetData) : bool :=
  match LiveThumbnail AssetData with
  | Some t =>
      negb ((GetImageWidth t <? 1) || (GetImageHeight t <? 1))
      && CanCreateTransient E (GetImageWidth t) (GetImageHeight t)
  | None => false
  end.

(** The two tests apart: the size test of line 181, and the allocation
    of line 188 at the size that test leaves. *)
Definition Usable (AssetData : FAssetData) : bool :=
  match LiveThumbnail AssetData with
  | Some t => negb ((GetImageWidth t <? 1) || (GetImageHeight t <? 1))
  | None => false
  end.

Definition Allocated (AssetData : FAssetData) : bool :=
  match LiveThumbnail AssetData with
  | Some t =>
      if (GetImageWidth t <? 1) || (GetImageHeight t <? 1)
      then CanCreateTransient E 1 1
      else CanCreateTransient E (GetImageWidth t) (GetImageHeight t)
  | None => CanCreateTransient E 1 1
  end.

(** Whether the package is on disk and holds a thumbnail of the asset. *)
Definition HasCached (AssetData : FAssetData) : bool :=
  match PackageFile AssetData with
  | Some file => bool_decide (is_Some (CachedThumbnail AssetData file))
  | None => false
  end.

(** [UTexture2D::CreateTransient(Width, Height, PF_B8G8R8A8)]: a new
    texture with one mip of four bytes per pixel, or null. *)
Definition CreateTransient (Width Height : Z) : M (option UTexture2D) :=
  if CanCreateTransient E Width Height then
    do id <- NewObject;
    ret (Some {| ObjectId := id; SizeX := Width; SizeY := Height;
                 Mip0 := repeat x00%byte (Z.to_nat (4 * Width * Height));
                 bNotOfflineProcessed := false |})
  else ret None.

(** [FImageUtils::ImportBufferAsTexture2D(Buffer)]: a new texture holding
    the decoded image, or null. *)
Definition ImportBufferAsTexture2D (Buffer : list byte)
  : M (option UTexture2D) :=
  match DecodeBuffer E Buffer with
  | Some (w, h, pixels) =>
      do id <- NewObject;
      ret (Some {| ObjectId := id; SizeX := w; SizeY := h; Mip0 := pixels;
                   bNotOfflineProcessed := false |})
  | None => ret None
  end.

(** *** The cached thumbnail of a package (lines 116-136 and 219-239)

    [ThumbnailMap.Find] gives a pointer that both functions read without
    testing it. *)
Definition BindCachedThumbnail (AssetData : FAssetData)
    (PackageFilename : string) : M unit :=
  let ObjectFullName := MakeFName (GetFullName AssetData) in
  let ObjectFullNames : gset FName := {[ ObjectFullName ]} in
  let ThumbnailMap :=
    LoadThumbnailsFromPackage E PackageFilename ObjectFullNames in
  let Thumbnail := ThumbnailMap !! ObjectFullName in
  run note (LoadCached (bool_decide (is_Some Thumbnail)));
  match Thumbnail with
  | None => crash NullThumbnail
  | Some t =>
      run SetImageWidth (GetImageWidth t);
      run SetImageHeight (GetImageHeight t);
      do s <- get;
      let CompressedByteArray :=
        PNGCompress E (GetUncompressedImageData t)
                    (ImageWidth s) (ImageHeight s) in
      do ThumbnailTexture <- ImportBufferAsTexture2D CompressedByteArray;
      run SetTextureParameterValue "texture" ThumbnailTexture;
      note BindCached
  end.

(** *** AddExistingAssetThumbnailToDynamicMaterial (lines 95-141) *)
Definition AddExistingAssetThumbnailToDynamicMaterial
    (AssetData : FAssetData) (DefaultTexture : option UTexture2D) : M unit :=
  let '(found, PackageFilename) := PackageExists AssetData "" in
  run note (RecheckStorage found);
  if found then
    BindCachedThumbnail AssetData PackageFilename
  else
    run SetTextureParameterValue "texture" DefaultTexture;
    note UseDefault.

(** *** RenderAssetThumbnailToDynamicMaterial (lines 143-246) *)

(** Lines 161-170. *)
Definition ValidateAsset (AssetData : FAssetData) : M string :=
  run SetIsValid false;
  let '(found, PackageFilename) := PackageExists AssetData "" in
  run (if found then SetIsValid true else ret tt);
  run note (CheckStorage found);
  ret PackageFilename.

(** Lines 174-185: generate, read the size, reject an unusable one. *)
Definition GenerateThumbnail (AssetData : FAssetData)
  : M (option FObjectThumbnail) :=
  let thumb := GenerateThumbnailForObjectToSaveToDisk E (GetAsset E AssetData) in
  run SetImageWidth 0;
  run SetImageHeight 0;
  run match thumb with
      | Some t =>
          run SetImageWidth (GetImageWidth t);
          SetImageHeight (GetImageHeight t)
      | None => ret tt
      end;
  do s <- get;
  run (if (ImageWidth s <? 1) || (ImageHeight s <? 1) then
         run SetImageWidth 1;
         run SetImageHeight 1;
         SetIsValid false
       else ret tt);
  do s <- get;
  run note (TryRegenerate (IsValid s));
  ret thumb.

(** Lines 188-191. *)
Definition PrepareTransient : M (option UTexture2D) :=
  do s <- get;
  do ThumbnailTexture <- CreateTransient (ImageWidth s) (ImageHeight s);
  run match ThumbnailTexture with
      | None => SetIsValid false
      | Some _ => ret tt
      end;
  run note (TryAllocate (bool_decide (is_Some ThumbnailTexture)));
  ret ThumbnailTexture.

(** Lines 195-205: copy the pixels, keep the texture alive, bind it. *)
Definition PopulateAndBind (ThumbnailTexture : option UTexture2D)
    (thumb : option FObjectThumbnail) : M unit :=
  match ThumbnailTexture with
  | None => crash NullTexture
  | Some tex =>
      match thumb with
      | None => crash NullThumbnail
      | Some t =>
          let RawData := GetUncompressedImageData t in
          let '(MipData, past) :=
            Memcpy (Mip0 tex) RawData (length RawData) in
          run WritePastMip past;
          let filled :=
            {| ObjectId := ObjectId tex; SizeX := SizeX tex;
               SizeY := SizeY tex;
               Mip0 := MipData;
               bNotOfflineProcessed := true |} in
          run AddToRoot (ObjectId filled);
          run SetTextureParameterValue "texture" (Some filled);
          note BindGenerated
      end
  end.

(** Lines 173-209; the answer tells whether line 206 returned. *)
Definition Regenerate (AssetData : FAssetData) : M bool :=
  do s <- get;
  if IsValid s then
    do thumb <- GenerateThumbnail AssetData;
    do ThumbnailTexture <- PrepareTransient;
    do s <- get;
    if IsValid s then
      run PopulateAndBind ThumbnailTexture thumb;
      ret true
    else ret false
  else ret false.

(** Lines 211-246. *)
Definition CachedOrDefault (AssetData : FAssetData)
    (DefaultTexture : option UTexture2D) (PackageFilename : string)
  : M unit :=
  let '(found, PackageFilename) := PackageExists AssetData PackageFilename in
  run note (RecheckStorage found);
  if found then
    run BindCachedThumbnail AssetData PackageFilename;
    SetIsValid true
  else
    run SetTextureParameterValue "texture" DefaultTexture;
    note UseDefault.

Definition RenderAssetThumbnailToDynamicMaterial
    (AssetData : FAssetData) (DefaultTexture : option UTexture2D) : M unit :=
  do PackageFilename <- ValidateAsset AssetData;
  do done <- Regenerate AssetData;
  if done then ret tt
  else CachedOrDefault AssetData DefaultTexture PackageFilename.

End Thumbnails.

Arguments Ok {_ A} a s.
Arguments Crash {_ A} f s.

(** ** GetEditorViewportMousePositionWS (lines 33-77) *)

(** The pointers the function reads through without a test.  A null one
    stops the call, as does taking the last widget of an empty path. *)
Inductive ViewportFault :=
| NullCursor                  (* line 40: GetPlatformCursor()-> *)
| EmptyWidgetPath             (* line 42: GetLastWidget() *)
| NullEditorViewportWidget    (* line 53: GetEditorViewportWidget()-> *)
| NullSceneViewport           (* line 53: GetSceneViewport()-> *)
| NullViewport.               (* line 66: Viewport-> *)

(** A Slate widget: its identity and [GetTypeAsString()]. *)
Record SWidget := {
  WidgetId : nat;
  GetTypeAsString : string
}.

(** [FSceneViewport]: [GetViewportWidget()] is a weak pointer, the identity
    of an [SViewport] or expired. *)
Record FSceneViewport := {
  GetViewportWidget : option nat
}.

(** [SEditorViewport]: [GetSceneViewport()] is a shared pointer that may be
    null. *)
Record SEditorViewport := {
  GetSceneViewport : option FSceneViewport
}.

(** [FViewport], of which the function reads [GetMousePos]. *)
Record FViewport := {
  GetMousePos : Z * Z
}.

Section Viewport.
(** [FVector] and [FSceneView] are engine types the function only passes
    along. *)
Variable FVector : Type.
Variable FSceneView : Type.

(** What the loop reads of a [FLevelEditorViewportClient]:
    [GetEditorViewportWidget()], a shared pointer that may be null; the
    [Viewport] member, a raw pointer; and the result of [CalcSceneView]
    (null when no view can be computed). *)
Record FLevelEditorViewportClient := {
  GetEditorViewportWidget : option SEditorViewport;
  Viewport : option FViewport;
  CalcSceneView : option FSceneView
}.

(** The editor as the function sees it: the platform cursor of the Slate
    application (a shared pointer, null or a cursor with its position in
    pixels), the widgets of the path that [LocateWindowUnderMouse] finds for
    a position (none when no window is there),
    [GEditor->GetLevelViewportClients()] and
    [FSceneView::DeprojectFVector2D].  The Slate application, [GEditor] and
    the clients in its array are taken as present. *)
Record Editor := {
  GetPlatformCursor : option (Z * Z);
  LocateWindowUnderMouse : Z * Z → list SWidget;
  GetLevelViewportClients : list FLevelEditorViewportClient;
  DeprojectFVector2D : FSceneView → Z * Z → FVector * FVector
}.

Variable Ed : Editor.

(** [VPClient->GetEditorViewportWidget()->GetSceneViewport()->GetViewportWidget()]
    of line 53: the weak pointer at the end of the chain, or the null
    pointer the chain stops at. *)
Definition ViewportWidgetOf (VPClient : FLevelEditorViewportClient)
  : ViewportFault + option nat :=
  match GetEditorViewportWidget VPClient with
  | None => inl NullEditorViewportWidget
  | Some EditorViewportWidget =>
      match GetSceneViewport EditorViewportWidget with
      | None => inl NullSceneViewport
      | Some SceneViewport => inr (GetViewportWidget SceneViewport)
      end
  end.

(** How the loop of lines 49-73 ends. *)
Inductive Scan :=
| Picked (Origin Direction : FVector)
| NonePicked
| ScanAborted (f : ViewportFault).

(** The [for] loop of lines 49-73 for the widget [Under] the mouse: the
    origin and direction written for the first client that shows that
    widget and has a scene view. *)
Fixpoint ScanViewportClients (Under : SWidget)
    (Clients : list FLevelEditorViewportClient) : Scan :=
  match Clients with
  | [] => NonePicked
  | VPClient :: rest =>
      match ViewportWidgetOf VPClient with
      | inl f => ScanAborted f
      | inr ViewportWidget =>
          if bool_decide (ViewportWidget = Some (WidgetId Under)) then
            match CalcSceneView VPClient with
            | Some SceneView =>
                match Viewport VPClient with
                | None => ScanAborted NullViewport
                | Some vp =>
                    let MousePosition := GetMousePos vp in
                    let ScreenPos := (fst MousePosition, snd MousePosition) in
                    let '(Origin, Direction) :=
                      DeprojectFVector2D Ed SceneView ScreenPos in
                    Picked Origin Direction
                end
            | None => ScanViewportClients Under rest
            end
          else ScanViewportClients Under rest
      end
  end.

(** The two reference parameters and the [LogTemp] warnings. *)
Record ViewportCall := {
  WorldOrigin : FVector;
  WorldDirection : FVector;
  LogTemp : list string
}.

(** A call returns its answer, or stops at a null pointer. *)
Inductive ViewportResult :=
| Returned (IsOverViewport : bool) (c : ViewportCall)
| Aborted (f : ViewportFault) (c : ViewportCall).

Definition GetEditorViewportMousePositionWS (c : ViewportCall)
  : ViewportResult :=
  match GetPlatformCursor Ed with
  | None => Aborted NullCursor c
  | Some GlobalMousePosition =>
      let WidgetUnderMouse := LocateWindowUnderMouse Ed GlobalMousePosition in
      match last WidgetUnderMouse with
      | None => Aborted EmptyWidgetPath c
      | Some LastWidget =>
          let TypeName := GetTypeAsString LastWidget in
          if negb (FString_eq TypeName "SViewport") then
            Returned false
              {| WorldOrigin := WorldOrigin c;
                 WorldDirection := WorldDirection c;
                 LogTemp := LogTemp c ++
                   [("Mouse is not over a viewport -- Detected UI element under mouse: "
                      ++ TypeName)%string] |}
          else
            match ScanViewportClients LastWidget (GetLevelViewportClients Ed) with
            | Picked Origin Direction =>
                Returned true
                  {| WorldOrigin := Origin; WorldDirection := Direction;
                     LogTemp := LogTemp c |}
            | NonePicked =>
                Returned false
                  {| WorldOrigin := WorldOrigin c;
                     WorldDirection := WorldDirection c;
                     LogTemp := LogTemp c ++
                       ["Could not find a valid viewport under the mouse"%string] |}
            | ScanAborted f => Aborted f c
            end
      end
  end.

(** The last widget of the path under the cursor, when there is one. *)
Definition WidgetUnderMouse : option SWidget :=
  match GetPlatformCursor Ed with
  | Some GlobalMousePosition =>
      last (LocateWindowUnderMouse Ed GlobalMousePosition)
  | None => None
  end.

(** The test of line 53 for a client whose pointers are all there. *)
Definition Owns (Under : SWidget) (VPClient : FLevelEditorViewportClient)
  : bool :=
  match ViewportWidgetOf VPClient with
  | inr ViewportWidget => bool_decide (ViewportWidget = Some (WidgetId Under))
  | inl _ => false
  end.

Definition IsUnderMouse (VPClient : FLevelEditorViewportClient) : bool :=
  match WidgetUnderMouse with
  | Some Under => Owns Under VPClient
  | None => false
  end.

(** A client serves the mouse when it is under it and has a scene view. *)
Definition Serves (VPClient : FLevelEditorViewportClient)
    (SceneView : FSceneView) : Prop :=
  IsUnderMouse VPClient = true ∧ CalcSceneView VPClient = Some SceneView.

(** A client none of whose pointers is null. *)
Definition Intact (VPClient : FLevelEditorViewportClient) : bool :=
  match ViewportWidgetOf VPClient, Viewport VPClient with
  | inr _, Some _ => true
  | _, _ => false
  end.

End Viewport.

Arguments GetEditorViewportWidget {_} _.
Arguments Viewport {_} _.
Arguments CalcSceneView {_} _.
Arguments GetPlatformCursor {_ _} _.
Arguments LocateWindowUnderMouse {_ _} _ _.
Arguments GetLevelViewportClients {_ _} _.
Arguments DeprojectFVector2D {_ _} _ _ _.
Arguments ViewportWidgetOf {_} VPClient.
Arguments Picked {_} Origin Direction.
Arguments NonePicked {_}.
Arguments ScanAborted {_} f.
Arguments ScanViewportClients {_ _} Ed Under Clients.
Arguments WorldOrigin {_} _.
Arguments WorldDirection {_} _.
Arguments LogTemp {_} _.
Arguments Returned {_} IsOverViewport c.
Arguments Aborted {_} f c.
Arguments GetEditorViewportMousePositionWS {_ _} Ed c.
Arguments WidgetUnderMouse {_ _} Ed.
Arguments Owns {_} Under VPClient.
Arguments IsUnderMouse {_ _} Ed VPClient.
Arguments Serves {_ _} Ed VPClient SceneView.
Arguments Intact {_} VPClient.

(** ** A small content folder

    Four packages on which the model is run: [/Game/Rock] renders to a 2x1
    thumbnail and has a cached 3x2 one; [/Game/Lamp] cannot be rendered but
    has a cached thumbnail; [/Game/Tree] exists, cannot be rendered and its
    package file holds no thumbnail; anything else is not on disk. *)

Module Demo.

#[local] Existing Instance TextNames.

Definition Asset (package : string) : FAssetData :=
  {| PackageName := package; GetFullName := "StaticMesh " ++ package |}.

Definition Pixels (n : nat) : list byte := repeat xff%byte (4 * n).

Definition ByteOf (z : Z) : byte :=
  match Byte.of_N (Z.to_N z) with Some b => b | None => x00%byte end.

Definition Rendered : FObjectThumbnail :=
  {| GetImageWidth := 2; GetImageHeight := 1;
     GetUncompressedImageData := Pixels 2 |}.

Definition Stored : FObjectThumbnail :=
  {| GetImageWidth := 3; GetImageHeight := 2;
     GetUncompressedImageData := Pixels 6 |}.

Definition OnDisk (package : string) : bool :=
  String.eqb package "/Game/Rock" || String.eqb package "/Game/Lamp"
  || String.eqb package "/Game/Tree".

Definition Content : Engine := {|
  DoesPackageExist := fun package =>
    if OnDisk package then Some (package ++ ".uasset") else None;
  GetAsset := fun a =>
    if OnDisk (PackageName a) then Some 7%nat else None;
  GenerateThumbnailForObjectToSaveToDisk := fun o =>
    match o with Some 7%nat => Some Rendered | _ => None end;
  CanCreateTransient := fun w h => (0 <? w) && (0 <? h);
  LoadThumbnailsFromPackage := fun file names =>
    if String.eqb file "/Game/Rock.uasset" || String.eqb file "/Game/Lamp.uasset"
    then set_to_map (fun n => (n, Stored)) names
    else ∅;
  PNGCompress := fun raw w h =>
    ByteOf w :: ByteOf h :: raw;
  DecodeBuffer := fun buffer =>
    match buffer with
    | w :: h :: raw => Some (Z.of_N (Byte.to_N w), Z.of_N (Byte.to_N h), raw)
    | _ => None
    end
|}.

(** An engine in which nothing can be rendered. *)
Definition Headless : Engine := {|
  DoesPackageExist := DoesPackageExist Content;
  GetAsset := GetAsset Content;
  GenerateThumbnailForObjectToSaveToDisk := fun _ => None;
  CanCreateTransient := CanCreateTransient Content;
  LoadThumbnailsFromPackage := LoadThumbnailsFromPackage Content;
  PNGCompress := PNGCompress Content;
  DecodeBuffer := DecodeBuffer Content
|}.

(** An engine whose renderer gives an empty 0x5 image. *)
Definition Flat : Engine := {|
  DoesPackageExist := DoesPackageExist Content;
  GetAsset := GetAsset Content;
  GenerateThumbnailForObjectToSaveToDisk := fun _ =>
    Some {| GetImageWidth := 0; GetImageHeight := 5;
            GetUncompressedImageData := [] |};
  CanCreateTransient := CanCreateTransient Content;
  LoadThumbnailsFromPackage := LoadThumbnailsFromPackage Content;
  PNGCompress := PNGCompress Content;
  DecodeBuffer := DecodeBuffer Content
|}.

Definition DefaultTexture : UTexture2D :=
  {| ObjectId := 1; SizeX := 64; SizeY := 64; Mip0 := [];
     bNotOfflineProcessed := false |}.

(** A call as Blueprint makes it: outputs zeroed, nothing bound yet. *)
Definition Entry : Frame :=
  {| ImageWidth := 0; ImageHeight := 0; IsValid := false;
     DynamicMaterial := {| TextureParameterValues := ∅ |};
     NextObject := 10; RootSet := []; Steps := [];
     PastTheMip := [] |}.

End Demo.

(** What a bound texture pointer shows, apart from which object it is. *)
Definition Picture (Bound : option (option UTexture2D))
  : option (option (Z * Z * list byte * bool)) :=
  match Bound with
  | Some (Some tex) =>
      Some (Some (SizeX tex, SizeY tex, Mip0 tex, bNotOfflineProcessed tex))
  | Some None => Some None
  | None => None
  end.

(** ** A small level editor

    Viewport clients: [Side] shows another widget; [Closing], [Perspective]
    and [Top] show widget 3, but [Closing] cannot compute a scene view;
    the editor viewport widget of [Torn] is gone.  In [Studio] the mouse is
    over widget 3, an [SViewport]; in [Browser] it is over a content
    browser; [Workshop] is [Studio] with a torn client in the list. *)

Module DemoEditor.

(** The pointer chain of a client whose scene viewport shows a widget. *)
Definition Shows (widget : nat) : option SEditorViewport :=
  Some {| GetSceneViewport := Some {| GetViewportWidget := Some widget |} |}.

Definition Side : FLevelEditorViewportClient Z :=
  {| GetEditorViewportWidget := Shows 4;
     Viewport := Some {| GetMousePos := (5, 6) |};
     CalcSceneView := Some 200 |}.

Definition Closing : FLevelEditorViewportClient Z :=
  {| GetEditorViewportWidget := Shows 3;
     Viewport := Some {| GetMousePos := (1, 1) |};
     CalcSceneView := None |}.

Definition Perspective : FLevelEditorViewportClient Z :=
  {| GetEditorViewportWidget := Shows 3;
     Viewport := Some {| GetMousePos := (40, 30) |};
     CalcSceneView := Some 100 |}.

Definition Top : FLevelEditorViewportClient Z :=
  {| GetEditorViewportWidget := Shows 3;
     Viewport := Some {| GetMousePos := (7, 8) |};
     CalcSceneView := Some 300 |}.

Definition Torn : FLevelEditorViewportClient Z :=
  {| GetEditorViewportWidget := None;
     Viewport := Some {| GetMousePos := (2, 2) |};
     CalcSceneView := Some 400 |}.

(** A deprojection that keeps the screen position and the view apart. *)
Definition Deproject (SceneView : Z) (ScreenPos : Z * Z)
  : (Z * Z * Z) * (Z * Z * Z) :=
  ((fst ScreenPos, snd ScreenPos, SceneView), (0, 0, 1)).

Definition OverViewport (position : Z * Z) : list SWidget :=
  [ {| WidgetId := 1; GetTypeAsString := "SWindow" |};
    {| WidgetId := 3; GetTypeAsString := "SViewport" |} ].

Definition OverBrowser (position : Z * Z) : list SWidget :=
  [ {| WidgetId := 1; GetTypeAsString := "SWindow" |};
    {| WidgetId := 9; GetTypeAsString := "SContentBrowser" |} ].

Definition Studio : Editor (Z * Z * Z) Z :=
  {| GetPlatformCursor := Some (640, 360);
     LocateWindowUnderMouse := OverViewport;
     GetLevelViewportClients := [Side; Closing; Perspective; Top];
     DeprojectFVector2D := Deproject |}.

Definition Browser : Editor (Z * Z * Z) Z :=
  {| GetPlatformCursor := Some (640, 360);
     LocateWindowUnderMouse := OverBrowser;
     GetLevelViewportClients := [Side; Closing; Perspective; Top];
     DeprojectFVector2D := Deproject |}.

Definition Workshop : Editor (Z * Z * Z) Z :=
  {| GetPlatformCursor := Some (640, 360);
     LocateWindowUnderMouse := OverViewport;
     GetLevelViewportClients := [Side; Torn];
     DeprojectFVector2D := Deproject |}.

Definition Call : ViewportCall (Z * Z * Z) :=
  {| WorldOrigin := (0, 0, 0); WorldDirection := (0, 0, 0); LogTemp := [] |}.

End DemoEditor.

(** ** Two more engines

    [Uncached] is [Demo.Content] with package files that hold no thumbnail
    and a codec that decodes nothing; in [Literal] every package name is on
    disk, the name None included. *)

Module DemoEngines.

#[local] Existing Instance TextNames.

Definition Uncached : Engine := {|
  DoesPackageExist := DoesPackageExist Demo.Content;
  GetAsset := GetAsset Demo.Content;
  GenerateThumbnailForObjectToSaveToDisk :=
    GenerateThumbnailForObjectToSaveToDisk Demo.Content;
  CanCreateTransient := CanCreateTransient Demo.Content;
  LoadThumbnailsFromPackage := fun _ _ => ∅;
  PNGCompress := fun _ _ _ => [];
  DecodeBuffer := fun _ => None
|}.

Definition Literal : Engine := {|
  DoesPackageExist := fun package => Some (package ++ ".uasset");
  GetAsset := fun _ => Some 7%nat;
  GenerateThumbnailForObjectToSaveToDisk :=
    GenerateThumbnailForObjectToSaveToDisk Demo.Content;
  CanCreateTransient := CanCreateTransient Demo.Content;
  LoadThumbnailsFromPackage := fun _ names =>
    set_to_map (fun n => (n, Demo.Stored)) names;
  PNGCompress := PNGCompress Demo.Content;
  DecodeBuffer := DecodeBuffer Demo.Content
|}.

(** An engine whose renderer gives a 1x1 thumbnail of twelve bytes. *)
Definition Bloated : Engine := {|
  DoesPackageExist := DoesPackageExist Demo.Content;
  GetAsset := GetAsset Demo.Content;
  GenerateThumbnailForObjectToSaveToDisk := fun _ =>
    Some {| GetImageWidth := 1; GetImageHeight := 1;
            GetUncompressedImageData := Demo.Pixels 3 |};
  CanCreateTransient := CanCreateTransient Demo.Content;
  LoadThumbnailsFromPackage := LoadThumbnailsFromPackage Demo.Content;
  PNGCompress := PNGCompress Demo.Content;
  DecodeBuffer := DecodeBuffer Demo.Content
|}.

(** A material that already has a normal map. *)
Definition Lit : Frame :=
  {| ImageWidth := 0; ImageHeight := 0; IsValid := false;
     DynamicMaterial :=
       {| TextureParameterValues :=
            {[ "normal" := Some Demo.DefaultTexture ]} |};
     NextObject := 10; RootSet := []; Steps := [];
     PastTheMip := [] |}.

End DemoEngines.

(** * Properties *)

(** ** Engine strings *)

Example FString_eq_ignores_case :
  FString_eq "none" "None" = true ∧ FString_eq "SVIEWPORT" "SViewport" = true
  ∧ FString_eq "/Game/None" "None" = false.
Proof. by vm_compute. Qed.

Lemma FString_eq_refl (a : string) : FString_eq a a = true.
Proof. apply String.eqb_refl. Qed.

(** ** Metadata tags *)

Section MetadataTagsFacts.
Context `{FNameTable}.
Implicit Types (Tags : list FName) (G : gset FName).

Lemma RegisterTag_union Tag G :
  RegisterTag Tag G = (if IsNone Tag then ∅ else {[ Tag ]}) ∪ G.
Proof.
  unfold RegisterTag. destruct (IsNone Tag); simpl.
  - set_solver.
  - case_bool_decide; simpl; set_solver.
Qed.

Lemma NamedTags_cons Tag Tags :
  NamedTags (Tag :: Tags)
  = (if IsNone Tag then ∅ else {[ Tag ]}) ∪ NamedTags Tags.
Proof.
  unfold NamedTags. simpl. destruct (IsNone Tag); simpl; set_solver.
Qed.

Lemma RegisterMetadataTags_eq Tags G :
  RegisterMetadataTags Tags G = G ∪ NamedTags Tags.
Proof.
  revert G. induction Tags as [|Tag Tags IH]; intros G.
  - unfold NamedTags. simpl. set_solver.
  - simpl. rewrite IH, RegisterTag_union, NamedTags_cons. set_solver.
Qed.

Lemma elem_of_NamedTags t Tags :
  t ∈ NamedTags Tags ↔ t ∈ Tags ∧ IsNone t = false.
Proof.
  unfold NamedTags. rewrite elem_of_list_to_set, list_elem_of_In, filter_In.
  rewrite <- list_elem_of_In, negb_true_iff. tauto.
Qed.

Lemma size_NamedTags Tags : (size (NamedTags Tags) ≤ length Tags)%nat.
Proof.
  induction Tags as [|t Tags IH].
  - change (NamedTags []) with (∅ : gset FName). rewrite size_empty. simpl. lia.
  - rewrite NamedTags_cons. destruct (IsNone t); simpl.
    + rewrite (left_id_L ∅ (∪)). lia.
    + rewrite size_union_alt, size_singleton.
      pose proof (subseteq_size (NamedTags Tags ∖ {[t]}) (NamedTags Tags)
                    ltac:(set_solver)).
      lia.
Qed.

(** C9: after the loop the global tag set is its prior contents together
    with the non-None tags of the input.  Every such tag is a member,
    None tags are skipped, nothing that was there is removed, and a call
    whose tags are all None or already present leaves the set as it was. *)
Theorem RegisterMetadataTags_adds_named_tags Tags G :
  RegisterMetadataTags Tags G = G ∪ NamedTags Tags
  ∧ (∀ t, t ∈ Tags → IsNone t = false → t ∈ RegisterMetadataTags Tags G)
  ∧ (∀ t, IsNone t = true → t ∉ G → t ∉ RegisterMetadataTags Tags G)
  ∧ G ⊆ RegisterMetadataTags Tags G
  ∧ ((∀ t, t ∈ Tags → IsNone t = true ∨ t ∈ G) →
     RegisterMetadataTags Tags G = G)
  ∧ (size (RegisterMetadataTags Tags G) ≤ size G + length Tags)%nat.
Proof.
  rewrite RegisterMetadataTags_eq. repeat split.
  - intros t Hin Hn. apply elem_of_union_r, elem_of_NamedTags. auto.
  - intros t Hn HG [?|Hin]%elem_of_union; [done|].
    apply elem_of_NamedTags in Hin as [_ Hf]. congruence.
  - set_solver.
  - intros Hall. apply (anti_symm (⊆)); [|set_solver].
    intros t [?|Hin]%elem_of_union; [done|].
    apply elem_of_NamedTags in Hin as [Hin Hf].
    destruct (Hall t Hin); [congruence|done].
  - rewrite size_union_alt.
    pose proof (subseteq_size (NamedTags Tags ∖ G) (NamedTags Tags)
                  ltac:(set_solver)).
    pose proof (size_NamedTags Tags). lia.
Qed.

End MetadataTagsFacts.

(** ** Viewport picking *)

Section ViewportFacts.
Context {FVector FSceneView : Type}.
Variable Ed : Editor FVector FSceneView.
Implicit Types (VPClient : FLevelEditorViewportClient FSceneView)
               (Clients : list (FLevelEditorViewportClient FSceneView))
               (Under : SWidget).

Lemma IsUnderMouse_Owns Under VPClient :
  WidgetUnderMouse Ed = Some Under →
  IsUnderMouse Ed VPClient = Owns Under VPClient.
Proof. unfold IsUnderMouse. by intros ->. Qed.

Lemma ScanViewportClients_Picked Under Clients Origin Direction :
  ScanViewportClients Ed Under Clients = Picked Origin Direction →
  ∃ VPClient SceneView vp,
    VPClient ∈ Clients ∧ Owns Under VPClient = true
    ∧ CalcSceneView VPClient = Some SceneView
    ∧ Viewport VPClient = Some vp
    ∧ (Origin, Direction)
      = DeprojectFVector2D Ed SceneView (GetMousePos vp).
Proof.
  induction Clients as [|c Clients IH]; simpl; [discriminate|].
  unfold Owns in *. destruct (ViewportWidgetOf c) as [f|w] eqn:Hw;
    [discriminate|].
  destruct (bool_decide (w = Some (WidgetId Under))) eqn:Hu.
  - destruct (CalcSceneView c) as [sv|] eqn:Hv.
    + destruct (Viewport c) as [vp|] eqn:Hp; [|discriminate].
      destruct (GetMousePos vp) as [x y] eqn:Hm. simpl.
      destruct (DeprojectFVector2D Ed sv (x, y)) as [o d'] eqn:Hd.
      intros [= <- <-]. exists c, sv, vp.
      split; [apply elem_of_cons; by left|].
      rewrite Hw, Hu, Hm. by split_and!.
    + intros (c' & sv' & vp' & ? & ?)%IH. exists c', sv', vp'.
      split; [apply elem_of_cons; by right|done].
  - intros (c' & sv' & vp' & ? & ?)%IH. exists c', sv', vp'.
    split; [apply elem_of_cons; by right|done].
Qed.

Lemma ScanViewportClients_NonePicked Under Clients :
  ScanViewportClients Ed Under Clients = NonePicked →
  ∀ VPClient, VPClient ∈ Clients →
    Owns Under VPClient = true → CalcSceneView VPClient = None.
Proof.
  induction Clients as [|c Clients IH]; simpl.
  - intros _ c' Hin. inversion Hin.
  - intros Hscan c' Hin. unfold Owns in *.
    destruct (ViewportWidgetOf c) as [f|w] eqn:Hw; [discriminate|].
    apply elem_of_cons in Hin as [->|Hin].
    + rewrite Hw. intros Hu. rewrite Hu in Hscan.
      destruct (CalcSceneView c); [|done].
      destruct (Viewport c) as [vp|]; [|discriminate].
      simpl in Hscan. by destruct (DeprojectFVector2D Ed _ _).
    + destruct (bool_decide (w = Some (WidgetId Under)));
        [destruct (CalcSceneView c)|]; try by apply IH.
      destruct (Viewport c) as [vp|]; [|discriminate].
      simpl in Hscan. by destruct (DeprojectFVector2D Ed _ _).
Qed.

Lemma ScanViewportClients_ScanAborted Under Clients f :
  ScanViewportClients Ed Under Clients = ScanAborted f →
  ∃ VPClient, VPClient ∈ Clients
    ∧ (ViewportWidgetOf VPClient = inl f
       ∨ (f = NullViewport ∧ Viewport VPClient = None)).
Proof.
  induction Clients as [|c Clients IH]; simpl; [discriminate|].
  destruct (ViewportWidgetOf c) as [f'|w] eqn:Hw.
  - intros [= <-]. exists c. split; [apply elem_of_cons; by left|by left].
  - destruct (bool_decide (w = Some (WidgetId Under)));
      [destruct (CalcSceneView c)|].
    + destruct (Viewport c) as [vp|] eqn:Hp.
      * simpl. by destruct (DeprojectFVector2D Ed _ _).
      * intros [= <-]. exists c.
        split; [apply elem_of_cons; by left|by right].
    + intros (c' & ? & ?)%IH. exists c'.
      split; [apply elem_of_cons; by right|done].
    + intros (c' & ? & ?)%IH. exists c'.
      split; [apply elem_of_cons; by right|done].
Qed.


End ViewportFacts.


(** ** Thumbnails *)

Section ThumbnailFacts.
Context `{FNameTable}.
Variable E : Engine.
Implicit Types (a : FAssetData) (d : option UTexture2D) (s : Frame)
               (t : FObjectThumbnail).

Lemma PackageExists_eq a f :
  PackageExists E a f
  = match PackageFile E a with
    | Some file => (true, file)
    | None => (false, f)
    end.
Proof.
  unfold PackageExists, PackageFile.
  destruct (negb _); [|done]. by destruct (DoesPackageExist E _).
Qed.

(** Unfold a call down to the oracles it consults. *)
Ltac expose :=
  unfold RenderAssetThumbnailToDynamicMaterial,
    AddExistingAssetThumbnailToDynamicMaterial, CachedOrDefault, Regenerate,
    PopulateAndBind, PrepareTransient, GenerateThumbnail, ValidateAsset,
    BindCachedThumbnail, ImportBufferAsTexture2D, CreateTransient,
    NewObject, AddToRoot, WritePastMip, Memcpy, SetTextureParameterValue,
    SetIsValid,
    SetImageHeight, SetImageWidth, note, modify, get, crash, bind, ret;
  rewrite ?PackageExists_eq;
  unfold Regenerates, Usable, Allocated, HasCached, LiveThumbnail,
    CachedThumbnail in *.

Lemma usable_size t :
  0 < GetImageWidth t → 0 < GetImageHeight t →
  (GetImageWidth t <? 1) || (GetImageHeight t <? 1) = false.
Proof. intros. apply orb_false_iff. split; apply Z.ltb_ge; lia. Qed.

(** The copy of a whole source: the mip keeps its length, starts with the
    bytes of the source that fit, and the rest of the source goes past it. *)
Lemma copy_length (Dest Src : list byte) :
  length (firstn (length Dest)
            (firstn (length Src) Src ++ skipn (length Src) Dest))
  = length Dest.
Proof.
  rewrite firstn_all, length_firstn, length_app, length_skipn. lia.
Qed.

Lemma copy_prefix (Dest Src : list byte) :
  firstn (length Src)
    (firstn (length Dest)
       (firstn (length Src) Src ++ skipn (length Src) Dest))
  = firstn (length Dest) Src.
Proof.
  rewrite firstn_all, firstn_firstn.
  destruct (Nat.le_gt_cases (length Src) (length Dest)) as [Hle|Hgt].
  - rewrite Nat.min_l by done.
    rewrite firstn_app, firstn_all, Nat.sub_diag, firstn_O, app_nil_r.
    by rewrite firstn_all2.
  - rewrite Nat.min_r by lia. rewrite firstn_app.
    replace (length Dest - length Src)%nat with 0%nat by lia.
    by rewrite firstn_O, app_nil_r.
Qed.

Lemma copy_fits (Dest Src : list byte) :
  (length Src ≤ length Dest)%nat →
  firstn (length Dest) (firstn (length Src) Src ++ skipn (length Src) Dest)
  = (Src ++ skipn (length Src) Dest)%list
  ∧ skipn (length Dest) (firstn (length Src) Src) = [].
Proof.
  intros Hle. rewrite firstn_all. split.
  - apply firstn_all2. rewrite length_app, length_skipn. lia.
  - by apply skipn_all2.
Qed.

(** C3: an asset on disk whose live thumbnail has positive size and whose
    transient texture is allocated is resolved on the spot: the call
    returns valid with the thumbnail's size, the bound texture is a new,
    rooted object of that size, and the steps taken end at the bind of the
    generated texture.  The texture's mip keeps its four bytes per pixel and
    starts with the thumbnail's bytes, as many as fit; what does not fit is
    written past the mip.  A thumbnail of at most four bytes per pixel is in
    the mip whole and nothing is written past it. *)
Theorem Render_generated a d s file t :
  PackageFile E a = Some file →
  LiveThumbnail E a = Some t →
  0 < GetImageWidth t →
  0 < GetImageHeight t →
  CanCreateTransient E (GetImageWidth t) (GetImageHeight t) = true →
  ∃ tex s',
    RenderAssetThumbnailToDynamicMaterial E a d s = Ok tt s'
    ∧ IsValid s' = true
    ∧ ImageWidth s' = GetImageWidth t
    ∧ ImageHeight s' = GetImageHeight t
    ∧ BoundTexture s' = Some (Some tex)
    ∧ ObjectId tex = NextObject s
    ∧ ObjectId tex ∈ RootSet s'
    ∧ SizeX tex = GetImageWidth t
    ∧ SizeY tex = GetImageHeight t
    ∧ length (Mip0 tex) = Z.to_nat (4 * GetImageWidth t * GetImageHeight t)
    ∧ firstn (length (GetUncompressedImageData t)) (Mip0 tex)
      = firstn (Z.to_nat (4 * GetImageWidth t * GetImageHeight t))
          (GetUncompressedImageData t)
    ∧ PastTheMip s'
      = (PastTheMip s
         ++ skipn (Z.to_nat (4 * GetImageWidth t * GetImageHeight t))
              (GetUncompressedImageData t))%list
    ∧ ((length (GetUncompressedImageData t)
        ≤ Z.to_nat (4 * GetImageWidth t * GetImageHeight t))%nat →
       firstn (length (GetUncompressedImageData t)) (Mip0 tex)
       = GetUncompressedImageData t
       ∧ PastTheMip s' = PastTheMip s)
    ∧ Steps s' = (Steps s ++ [CheckStorage true; TryRegenerate true;
                              TryAllocate true; BindGenerated])%list.
Proof.
  intros Hf Hl Hw Hh Hc. expose. rewrite Hf. simpl.
  rewrite Hl. simpl. rewrite (usable_size t Hw Hh). simpl.
  rewrite Hc. simpl. eexists _, _. split; [reflexivity|]. simpl.
  do 3 (split; [reflexivity|]).
  split; [apply lookup_insert_eq|]. simpl.
  set (data := GetUncompressedImageData t).
  set (size := Z.to_nat (4 * GetImageWidth t * GetImageHeight t)).
  pose proof (copy_length (repeat x00%byte size) data) as Hlen.
  pose proof (copy_prefix (repeat x00%byte size) data) as Hpre.
  rewrite repeat_length in Hlen, Hpre. rewrite !repeat_length.
  split_and!; try reflexivity.
  - apply elem_of_cons. by left.
  - exact Hlen.
  - exact Hpre.
  - by rewrite firstn_all.
  - intros Hfit. split.
    + rewrite Hpre. by apply firstn_all2.
    + rewrite firstn_all, skipn_all2 by done. by rewrite app_nil_r.
  - by rewrite <- !app_assoc.
Qed.

(** The run on an asset that is not on disk. *)
Lemma Render_not_on_disk a d s :
  PackageFile E a = None →
  ∃ s',
    RenderAssetThumbnailToDynamicMaterial E a d s = Ok tt s'
    ∧ IsValid s' = false
    ∧ BoundTexture s' = Some d
    ∧ ImageWidth s' = ImageWidth s
    ∧ ImageHeight s' = ImageHeight s
    ∧ NextObject s' = NextObject s
    ∧ Steps s' = (Steps s ++ [CheckStorage false; RecheckStorage false;
                              UseDefault])%list.
Proof.
  intros Hf. expose. rewrite Hf. simpl. rewrite PackageExists_eq, Hf. simpl.
  eexists. split; [reflexivity|]. simpl.
  split_and!; try reflexivity.
  - apply lookup_insert_eq.
  - by rewrite <- !app_assoc.
Qed.

(** C4, as the code has it: for an asset that is not on disk the call
    returns invalid with the caller's default bound, and the width and
    height are the ones the caller passed in: this path assigns neither
    and creates no object. *)
Theorem Render_missing_asset a d s :
  PackageFile E a = None →
  ∃ s',
    RenderAssetThumbnailToDynamicMaterial E a d s = Ok tt s'
    ∧ IsValid s' = false
    ∧ BoundTexture s' = Some d
    ∧ ImageWidth s' = ImageWidth s
    ∧ ImageHeight s' = ImageHeight s
    ∧ NextObject s' = NextObject s.
Proof.
  intros Hf.
  destruct (Render_not_on_disk a d s Hf) as (s' & ? & ? & ? & ? & ? & ? & _).
  exists s'. by split_and!.
Qed.


(** C7: with the package on disk, both functions read the pointer that
    [ThumbnailMap.Find] gives without testing it.  Each returns exactly
    when the lookup finds a thumbnail (or, for the rendering function, when
    regeneration already succeeded); when the package file holds no
    thumbnail for the object the null pointer is dereferenced and nothing
    has been bound. *)
Theorem cached_lookup_unchecked a d s file :
  PackageFile E a = Some file →
  (returned (AddExistingAssetThumbnailToDynamicMaterial E a d s) = true
     ↔ is_Some (CachedThumbnail E a file))
  ∧ (returned (RenderAssetThumbnailToDynamicMaterial E a d s) = true
     ↔ Regenerates E a = true ∨ is_Some (CachedThumbnail E a file))
  ∧ (CachedThumbnail E a file = None →
     ∃ s', AddExistingAssetThumbnailToDynamicMaterial E a d s
           = Crash NullThumbnail s'
           ∧ BoundTexture s' = BoundTexture s)
  ∧ (CachedThumbnail E a file = None → Regenerates E a = false →
     ∃ s', RenderAssetThumbnailToDynamicMaterial E a d s
           = Crash NullThumbnail s'
           ∧ BoundTexture s' = BoundTexture s).
Proof.
  intros Hf. split_and!.
  - expose. rewrite Hf. simpl.
    destruct (LoadThumbnailsFromPackage E file _ !! _) as [c|]; simpl.
    + destruct (DecodeBuffer E _) as [[[? ?] ?]|]; simpl; split; eauto.
    + split; [discriminate|]. by intros [? [=]].
  - expose. rewrite Hf. simpl.
    destruct (GenerateThumbnailForObjectToSaveToDisk E (GetAsset E a))
      as [t|]; simpl.
    + destruct ((GetImageWidth t <? 1) || (GetImageHeight t <? 1)); simpl.
      * destruct (CanCreateTransient E 1 1); simpl;
          rewrite PackageExists_eq, Hf; simpl;
          (destruct (LoadThumbnailsFromPackage E file _ !! _) as [c|]; simpl;
           [destruct (DecodeBuffer E _) as [[[? ?] ?]|]; simpl; split; eauto
           |split; [discriminate|]; intros [[=]|[? [=]]]]).
      * destruct (CanCreateTransient E _ _); simpl; [split; eauto|].
        rewrite PackageExists_eq, Hf; simpl.
        destruct (LoadThumbnailsFromPackage E file _ !! _) as [c|]; simpl;
          [destruct (DecodeBuffer E _) as [[[? ?] ?]|]; simpl; split; eauto
          |split; [discriminate|]; intros [[=]|[? [=]]]].
    + destruct (CanCreateTransient E 1 1); simpl;
        rewrite PackageExists_eq, Hf; simpl;
        (destruct (LoadThumbnailsFromPackage E file _ !! _) as [c|]; simpl;
         [destruct (DecodeBuffer E _) as [[[? ?] ?]|]; simpl; split; eauto
         |split; [discriminate|]; intros [[=]|[? [=]]]]).
  - intros Hc. expose. rewrite Hf. simpl. rewrite Hc. simpl. eauto.
  - intros Hc Hr. expose. rewrite Hf. simpl.
    destruct (GenerateThumbnailForObjectToSaveToDisk E (GetAsset E a))
      as [t|]; simpl.
    + destruct ((GetImageWidth t <? 1) || (GetImageHeight t <? 1)); simpl.
      * destruct (CanCreateTransient E 1 1); simpl;
          rewrite PackageExists_eq, Hf; simpl; rewrite Hc; simpl; eauto.
      * simpl in Hr. rewrite Hr. simpl.
        rewrite PackageExists_eq, Hf; simpl; rewrite Hc; simpl; eauto.
    + destruct (CanCreateTransient E 1 1); simpl;
        rewrite PackageExists_eq, Hf; simpl; rewrite Hc; simpl; eauto.
Qed.

(** C8: the existing-thumbnail function never assigns [IsValid]; it
    assigns the width and height only when the package name is not None,
    the package is on disk and a cached thumbnail is read; on the
    default-texture path the three outputs are as the caller passed
    them. *)
Theorem AddExisting_outputs a d s :
  let r := AddExistingAssetThumbnailToDynamicMaterial E a d s in
  IsValid (frame_of r) = IsValid s
  ∧ (PackageFile E a = None →
     returned r = true
     ∧ ImageWidth (frame_of r) = ImageWidth s
     ∧ ImageHeight (frame_of r) = ImageHeight s
     ∧ BoundTexture (frame_of r) = Some d
     ∧ Steps (frame_of r) = (Steps s ++ [RecheckStorage false; UseDefault])%list)
  ∧ (ImageWidth (frame_of r) ≠ ImageWidth s
     ∨ ImageHeight (frame_of r) ≠ ImageHeight s →
     ∃ file t, PackageFile E a = Some file
               ∧ CachedThumbnail E a file = Some t)
  ∧ (∀ file t, PackageFile E a = Some file →
               CachedThumbnail E a file = Some t →
               returned r = true
               ∧ ImageWidth (frame_of r) = GetImageWidth t
               ∧ ImageHeight (frame_of r) = GetImageHeight t).
Proof.
  expose. destruct (PackageFile E a) as [file|] eqn:Hf; simpl.
  - destruct (LoadThumbnailsFromPackage E file _ !! _) as [c|] eqn:Hc; simpl.
    + destruct (DecodeBuffer E _) as [[[? ?] ?]|]; simpl;
        (split_and!; [done|discriminate|eauto|]);
        intros ? ? [= <-]; rewrite Hc; by intros [= <-].
    + split_and!; [done|discriminate|intros [?|?]; done|].
      intros ? ? [= <-]. by rewrite Hc.
  - split_and!; [done| |intros [?|?]; done|discriminate].
    intros _. split_and!; try done.
    + apply lookup_insert_eq.
    + by rewrite <- app_assoc.
Qed.

(** Facts about a concrete list of steps. *)
Ltac walk Hin :=
  repeat match type of Hin with
    | _ ∈ _ :: _ =>
        apply elem_of_cons in Hin as [Hin|Hin];
        [try discriminate; try (subst; simpl in *; done)|]
    | _ ∈ [] => by inversion Hin
    end.

Lemma Chain_forward found usable allocated cached :
  forward_only (Chain found usable allocated cached) = true.
Proof. by destruct found, usable, allocated, cached. Qed.

Lemma Chain_bind_last found usable allocated cached st :
  st ∈ Chain found usable allocated cached → binds st = true →
  last (Chain found usable allocated cached) = Some st.
Proof.
  destruct found, usable, allocated, cached; simpl; intros Hin Hb; walk Hin.
Qed.

Lemma Chain_default found usable allocated cached :
  UseDefault ∈ Chain found usable allocated cached →
  found = false ∧ RecheckStorage false ∈ Chain found usable allocated cached.
Proof.
  destruct found, usable, allocated, cached; simpl; intros Hin;
    try (split; [done|]; apply elem_of_cons; right; apply elem_of_cons;
         by left); walk Hin.
Qed.

Lemma Chain_cached found usable allocated cached c :
  LoadCached c ∈ Chain found usable allocated cached →
  usable && allocated = false
  ∧ RecheckStorage true ∈ Chain found usable allocated cached.
Proof.
  destruct found, usable, allocated, cached; simpl; intros Hin;
    try (split; [done|]; do 3 (apply elem_of_cons; right);
         apply elem_of_cons; by left); walk Hin.
Qed.

Lemma Render_steps a d s :
  let r := RenderAssetThumbnailToDynamicMaterial E a d s in
  Steps (frame_of r)
  = (Steps s ++ Chain (bool_decide (is_Some (PackageFile E a)))
                      (Usable E a) (Allocated E a) (HasCached E a))%list
  ∧ returned r
    = ends_with_bind (Chain (bool_decide (is_Some (PackageFile E a)))
                            (Usable E a) (Allocated E a) (HasCached E a)).
Proof.
  expose. destruct (PackageFile E a) as [file|] eqn:Hf; simpl.
  - destruct (GenerateThumbnailForObjectToSaveToDisk E (GetAsset E a))
      as [t|]; simpl;
      [destruct ((GetImageWidth t <? 1) || (GetImageHeight t <? 1)); simpl|];
      (destruct (CanCreateTransient E _ _); simpl;
       rewrite ?PackageExists_eq, ?Hf; simpl;
       [try (destruct (LoadThumbnailsFromPackage E file _ !! _); simpl;
             [destruct (DecodeBuffer E _) as [[[? ?] ?]|]; simpl|])
       |destruct (LoadThumbnailsFromPackage E file _ !! _); simpl;
          [destruct (DecodeBuffer E _) as [[[? ?] ?]|]; simpl|]]);
      by rewrite <- !app_assoc.
  - rewrite PackageExists_eq, Hf. simpl. by rewrite <- !app_assoc.
Qed.

Lemma Regenerates_eq a : Regenerates E a = Usable E a && Allocated E a.
Proof.
  unfold Regenerates, Usable, Allocated.
  destruct (LiveThumbnail E a) as [t|]; [|done].
  by destruct ((GetImageWidth t <? 1) || (GetImageHeight t <? 1)).
Qed.


(** The outputs of a call on an asset that is on disk do not depend on
    the frame it starts from. *)
Lemma Render_outputs_on_disk a d s s' file :
  PackageFile E a = Some file →
  let r := RenderAssetThumbnailToDynamicMaterial E a d s in
  let r' := RenderAssetThumbnailToDynamicMaterial E a d s' in
  returned r' = returned r
  ∧ IsValid (frame_of r') = IsValid (frame_of r)
  ∧ ImageWidth (frame_of r') = ImageWidth (frame_of r)
  ∧ ImageHeight (frame_of r') = ImageHeight (frame_of r).
Proof.
  intros Hf. expose. rewrite Hf. simpl.
  destruct (GenerateThumbnailForObjectToSaveToDisk E (GetAsset E a))
    as [t|]; simpl;
    [destruct ((GetImageWidth t <? 1) || (GetImageHeight t <? 1)); simpl|];
    (destruct (CanCreateTransient E _ _); simpl;
     rewrite ?PackageExists_eq, ?Hf; simpl;
     [try (destruct (LoadThumbnailsFromPackage E file _ !! _); simpl;
           [destruct (DecodeBuffer E _) as [[[? ?] ?]|]; simpl|])
     |destruct (LoadThumbnailsFromPackage E file _ !! _); simpl;
        [destruct (DecodeBuffer E _) as [[[? ?] ?]|]; simpl|]]);
    done.
Qed.

(** Textures are only ever added, and a texture bound by a call
    on an asset that is on disk was created by that call. *)
Lemma Render_fresh_texture a d s file tex :
  PackageFile E a = Some file →
  let r := RenderAssetThumbnailToDynamicMaterial E a d s in
  returned r = true →
  BoundTexture (frame_of r) = Some (Some tex) →
  (NextObject s ≤ ObjectId tex < NextObject (frame_of r))%nat.
Proof.
  intros Hf. unfold BoundTexture. expose. rewrite Hf. simpl.
  destruct (GenerateThumbnailForObjectToSaveToDisk E (GetAsset E a))
    as [t|]; simpl;
    [destruct ((GetImageWidth t <? 1) || (GetImageHeight t <? 1)); simpl|];
    (destruct (CanCreateTransient E _ _); simpl;
     rewrite ?PackageExists_eq, ?Hf; simpl;
     [try (destruct (LoadThumbnailsFromPackage E file _ !! _); simpl;
           [destruct (DecodeBuffer E _) as [[[? ?] ?]|]; simpl|])
     |destruct (LoadThumbnailsFromPackage E file _ !! _); simpl;
        [destruct (DecodeBuffer E _) as [[[? ?] ?]|]; simpl|]]);
    try discriminate; rewrite lookup_insert_eq;
    intros _ [= <-] || intros _ [=]; simpl; lia.
Qed.

(** C6: a second call on the frame the first one left gives the same
    flag, width and height and ends the same way; it takes the same steps
    again from the start; the outputs are the same from any frame that
    agrees on the incoming width and height; and when the asset is on disk
    the texture bound by the second call is a newer object than the one
    bound by the first. *)
Theorem Render_twice a d s :
  let r1 := RenderAssetThumbnailToDynamicMaterial E a d s in
  let r2 := RenderAssetThumbnailToDynamicMaterial E a d (frame_of r1) in
  returned r2 = returned r1
  ∧ IsValid (frame_of r2) = IsValid (frame_of r1)
  ∧ ImageWidth (frame_of r2) = ImageWidth (frame_of r1)
  ∧ ImageHeight (frame_of r2) = ImageHeight (frame_of r1)
  ∧ (∃ tr, Steps (frame_of r1) = (Steps s ++ tr)%list
           ∧ Steps (frame_of r2) = (Steps s ++ tr ++ tr)%list)
  ∧ (∀ s', ImageWidth s' = ImageWidth s → ImageHeight s' = ImageHeight s →
       let r' := RenderAssetThumbnailToDynamicMaterial E a d s' in
       returned r' = returned r1
       ∧ IsValid (frame_of r') = IsValid (frame_of r1)
       ∧ ImageWidth (frame_of r') = ImageWidth (frame_of r1)
       ∧ ImageHeight (frame_of r') = ImageHeight (frame_of r1))
  ∧ (∀ tex1 tex2, is_Some (PackageFile E a) → returned r1 = true →
       BoundTexture (frame_of r1) = Some (Some tex1) →
       BoundTexture (frame_of r2) = Some (Some tex2) →
       (ObjectId tex1 < ObjectId tex2)%nat).
Proof.
  intros r1 r2.
  assert (∀ s', ImageWidth s' = ImageWidth s → ImageHeight s' = ImageHeight s →
       let r' := RenderAssetThumbnailToDynamicMaterial E a d s' in
       returned r' = returned r1
       ∧ IsValid (frame_of r') = IsValid (frame_of r1)
       ∧ ImageWidth (frame_of r') = ImageWidth (frame_of r1)
       ∧ ImageHeight (frame_of r') = ImageHeight (frame_of r1)) as Hsame.
  { intros s' Hw Hh. destruct (PackageFile E a) as [file|] eqn:Hf.
    - by apply (Render_outputs_on_disk a d s s' file).
    - subst r1.
      destruct (Render_not_on_disk a d s Hf)
        as (z & Hz & Hv & _ & Hw1 & Hh1 & _).
      destruct (Render_not_on_disk a d s' Hf)
        as (z' & Hz' & Hv' & _ & Hw2 & Hh2 & _).
      simpl. rewrite Hz, Hz'. simpl. split_and!; congruence. }
  assert (ImageWidth (frame_of r1) = ImageWidth s
          ∧ ImageHeight (frame_of r1) = ImageHeight s
          ∨ is_Some (PackageFile E a)) as Hcase.
  { destruct (PackageFile E a) as [file|] eqn:Hf; [right; eauto|left].
    subst r1.
    destruct (Render_not_on_disk a d s Hf) as (z & Hz & _ & _ & Hw1 & Hh1 & _).
    by rewrite Hz. }
  assert (returned r2 = returned r1
          ∧ IsValid (frame_of r2) = IsValid (frame_of r1)
          ∧ ImageWidth (frame_of r2) = ImageWidth (frame_of r1)
          ∧ ImageHeight (frame_of r2) = ImageHeight (frame_of r1))
    as (Hr & Hv & Hw & Hh).
  { destruct Hcase as [[Hw Hh]|[file Hf]].
    - by apply Hsame.
    - by apply (Render_outputs_on_disk a d s (frame_of r1) file). }
  split_and!; try done.
  - eexists. split; [apply Render_steps|].
    subst r2. rewrite (proj1 (Render_steps a d (frame_of r1))).
    subst r1. rewrite (proj1 (Render_steps a d s)). by rewrite app_assoc.
  - intros tex1 tex2 [file Hf] Hret Hb1 Hb2.
    pose proof (Render_fresh_texture a d s file tex1 Hf Hret Hb1) as Hold.
    assert (returned r2 = true) as Hret2 by congruence.
    pose proof (Render_fresh_texture a d (frame_of r1) file tex2 Hf Hret2 Hb2)
      as Hnew.
    fold r1 in Hold. lia.
Qed.

(** A call that returns has bound a texture pointer to the parameter. *)
Lemma Render_returns_bound a d s :
  let r := RenderAssetThumbnailToDynamicMaterial E a d s in
  returned r = true → is_Some (BoundTexture (frame_of r)).
Proof.
  unfold BoundTexture. expose.
  destruct (PackageFile E a) as [file|] eqn:Hf; simpl.
  - destruct (GenerateThumbnailForObjectToSaveToDisk E (GetAsset E a))
      as [t|]; simpl;
      [destruct ((GetImageWidth t <? 1) || (GetImageHeight t <? 1)); simpl|];
      (destruct (CanCreateTransient E _ _); simpl;
       rewrite ?PackageExists_eq, ?Hf; simpl;
       [try (destruct (LoadThumbnailsFromPackage E file _ !! _); simpl;
             [destruct (DecodeBuffer E _) as [[[? ?] ?]|]; simpl|])
       |destruct (LoadThumbnailsFromPackage E file _ !! _); simpl;
          [destruct (DecodeBuffer E _) as [[[? ?] ?]|]; simpl|]]);
      try discriminate; rewrite lookup_insert_eq; eauto.
  - rewrite PackageExists_eq, Hf. simpl. rewrite lookup_insert_eq. eauto.
Qed.

End ThumbnailFacts.

(** ** Runs on the content folder *)

Lemma Render_generated_rock :
  ∃ tex s',
    RenderAssetThumbnailToDynamicMaterial Demo.Content
      (Demo.Asset "/Game/Rock") (Some Demo.DefaultTexture) Demo.Entry
    = Ok tt s'
    ∧ IsValid s' = true
    ∧ ImageWidth s' = 2
    ∧ ImageHeight s' = 1
    ∧ BoundTexture s' = Some (Some tex)
    ∧ ObjectId tex = 10%nat
    ∧ ObjectId tex ∈ RootSet s'
    ∧ SizeX tex = 2
    ∧ SizeY tex = 1
    ∧ length (Mip0 tex) = 8%nat
    ∧ firstn 8 (Mip0 tex) = firstn 8 (Demo.Pixels 2)
    ∧ PastTheMip s' = []
    ∧ ((8 ≤ 8)%nat → firstn 8 (Mip0 tex) = Demo.Pixels 2 ∧ PastTheMip s' = [])
    ∧ Steps s' = [CheckStorage true; TryRegenerate true; TryAllocate true;
                  BindGenerated].
Proof.
  apply (@Render_generated TextNames Demo.Content (Demo.Asset "/Game/Rock")
           (Some Demo.DefaultTexture) Demo.Entry "/Game/Rock.uasset"
           Demo.Rendered).
  - reflexivity.
  - reflexivity.
  - simpl. lia.
  - simpl. lia.
  - reflexivity.
Defined.

(** A 1x1 live thumbnail that holds twelve bytes: the call returns valid as
    before, the mip of the bound texture has its four bytes, and the other
    eight were written past it. *)
Example Render_generated_oversize :
  let r := RenderAssetThumbnailToDynamicMaterial DemoEngines.Bloated
             (Demo.Asset "/Game/Rock") (Some Demo.DefaultTexture) Demo.Entry in
  returned r = true
  ∧ IsValid (frame_of r) = true
  ∧ (ImageWidth (frame_of r), ImageHeight (frame_of r)) = (1, 1)
  ∧ Picture (BoundTexture (frame_of r))
    = Some (Some (1, 1, Demo.Pixels 1, true))
  ∧ PastTheMip (frame_of r) = Demo.Pixels 2.
Proof. vm_compute. by split_and!. Qed.

(** A missing asset resolved with a 64x64 default from zeroed outputs: the
    call returns {0, 0, false}, neither 1x1 nor the size of the default. *)
Lemma Render_missing_asset_size :
  let r := RenderAssetThumbnailToDynamicMaterial Demo.Content
             (Demo.Asset "/Game/Gone") (Some Demo.DefaultTexture) Demo.Entry in
  PackageFile Demo.Content (Demo.Asset "/Game/Gone") = None
  ∧ HasCached Demo.Content (Demo.Asset "/Game/Gone") = false
  ∧ returned r = true
  ∧ IsValid (frame_of r) = false
  ∧ BoundTexture (frame_of r) = Some (Some Demo.DefaultTexture)
  ∧ (SizeX Demo.DefaultTexture, SizeY Demo.DefaultTexture) = (64, 64)
  ∧ ¬ ((ImageWidth (frame_of r), ImageHeight (frame_of r)) = (1, 1)
       ∨ (ImageWidth (frame_of r), ImageHeight (frame_of r))
         = (SizeX Demo.DefaultTexture, SizeY Demo.DefaultTexture)).
Proof.
  vm_compute. split_and!; try reflexivity. intros [[=]|[=]].
Qed.

Lemma Render_missing_asset_gone :
  ∃ s',
    RenderAssetThumbnailToDynamicMaterial Demo.Content
      (Demo.Asset "/Game/Gone") (Some Demo.DefaultTexture) Demo.Entry
    = Ok tt s'
    ∧ IsValid s' = false
    ∧ BoundTexture s' = Some (Some Demo.DefaultTexture)
    ∧ ImageWidth s' = 0
    ∧ ImageHeight s' = 0
    ∧ NextObject s' = 10%nat.
Proof.
  apply (@Render_missing_asset TextNames Demo.Content (Demo.Asset "/Game/Gone")
           (Some Demo.DefaultTexture) Demo.Entry).
  reflexivity.
Defined.


Lemma cached_lookup_unchecked_tree :
  (∃ s', AddExistingAssetThumbnailToDynamicMaterial Demo.Headless
           (Demo.Asset "/Game/Tree") (Some Demo.DefaultTexture) Demo.Entry
         = Crash NullThumbnail s'
         ∧ BoundTexture s' = None)
  ∧ (∃ s', RenderAssetThumbnailToDynamicMaterial Demo.Headless
             (Demo.Asset "/Game/Tree") (Some Demo.DefaultTexture) Demo.Entry
           = Crash NullThumbnail s'
           ∧ BoundTexture s' = None).
Proof.
  destruct (@cached_lookup_unchecked TextNames Demo.Headless
              (Demo.Asset "/Game/Tree") (Some Demo.DefaultTexture) Demo.Entry
              "/Game/Tree.uasset" eq_refl) as (_ & _ & Hadd & Hrender).
  split.
  - apply Hadd. reflexivity.
  - apply Hrender; reflexivity.
Defined.

(** C2 on the code: a package that is on disk, cannot be rendered and holds
    no cached thumbnail.  The call does not return: it reads through the
    null pointer of the lookup, with the flag false and nothing bound to the
    material. *)
Theorem Render_uncached_asset_faults :
  let r := RenderAssetThumbnailToDynamicMaterial Demo.Headless
             (Demo.Asset "/Game/Tree") (Some Demo.DefaultTexture) Demo.Entry in
  PackageFile Demo.Headless (Demo.Asset "/Game/Tree") = Some "/Game/Tree.uasset"
  ∧ LiveThumbnail Demo.Headless (Demo.Asset "/Game/Tree") = None
  ∧ CachedThumbnail Demo.Headless (Demo.Asset "/Game/Tree") "/Game/Tree.uasset"
    = None
  ∧ returned r = false
  ∧ (∃ s', r = Crash NullThumbnail s')
  ∧ IsValid (frame_of r) = false
  ∧ BoundTexture (frame_of r) = None
  ∧ Steps (frame_of r) = [CheckStorage true; TryRegenerate false;
                          TryAllocate true; RecheckStorage true;
                          LoadCached false].
Proof.
  vm_compute. split_and!; try reflexivity. eexists. reflexivity.
Qed.

(** * Further properties *)

(** ** Metadata tags: repeated and reordered calls *)

Section MetadataTagsAlgebra.
Context `{FNameTable}.
Implicit Types (Tags : list FName) (G : gset FName).

(** Registering the same tags a second time changes nothing. *)
Theorem RegisterMetadataTags_idempotent Tags G :
  RegisterMetadataTags Tags (RegisterMetadataTags Tags G)
  = RegisterMetadataTags Tags G.
Proof. rewrite !RegisterMetadataTags_eq. set_solver. Qed.

(** One call on a concatenated list is two calls in a row, and two calls
    can be made in either order. *)
Theorem RegisterMetadataTags_batches Tags1 Tags2 G :
  RegisterMetadataTags (Tags1 ++ Tags2) G
  = RegisterMetadataTags Tags2 (RegisterMetadataTags Tags1 G)
  ∧ RegisterMetadataTags Tags1 (RegisterMetadataTags Tags2 G)
    = RegisterMetadataTags Tags2 (RegisterMetadataTags Tags1 G).
Proof.
  split.
  - revert G. induction Tags1 as [|Tag Tags1 IH]; intros G; [done|].
    simpl. apply IH.
  - rewrite !RegisterMetadataTags_eq. set_solver.
Qed.

(** Only which named tags occur in the list matters: order and repetition
    do not. *)
Theorem RegisterMetadataTags_same_tags Tags1 Tags2 G :
  (∀ t, IsNone t = false → t ∈ Tags1 ↔ t ∈ Tags2) →
  RegisterMetadataTags Tags1 G = RegisterMetadataTags Tags2 G.
Proof.
  intros Hsame. rewrite !RegisterMetadataTags_eq.
  assert (NamedTags Tags1 = NamedTags Tags2) as ->; [|done].
  apply set_eq. intros t. rewrite !elem_of_NamedTags.
  split; intros [Hin Hn]; (split; [by apply (Hsame t Hn)|done]).
Qed.

(** A registry without a None tag stays without one. *)
Theorem RegisterMetadataTags_keeps_None_out Tags G :
  (∀ t, t ∈ G → IsNone t = false) →
  ∀ t, t ∈ RegisterMetadataTags Tags G → IsNone t = false.
Proof.
  intros HG t. rewrite RegisterMetadataTags_eq.
  intros [Hin|Hin]%elem_of_union; [by apply HG|].
  by apply elem_of_NamedTags in Hin as [_ ?].
Qed.

End MetadataTagsAlgebra.

Lemma RegisterMetadataTags_same_tags_run :
  RegisterMetadataTags (H := TextNames) ["Author"; "None"; "Tool"; "Author"]
    {[ "Tool" ]}
  = RegisterMetadataTags (H := TextNames) ["Tool"; "Author"] {[ "Tool" ]}.
Proof.
  apply (@RegisterMetadataTags_same_tags TextNames).
  intros t Hn. rewrite !elem_of_cons, !elem_of_nil.
  split; intros Hin; repeat destruct Hin as [Hin|Hin]; subst; auto;
    discriminate.
Defined.

Lemma RegisterMetadataTags_keeps_None_out_run :
  "Author" ∈ RegisterMetadataTags (H := TextNames) ["Author"; "None"; "none"]
               {[ "Tool" ]}
  ∧ "None" ∉ RegisterMetadataTags (H := TextNames) ["Author"; "None"; "none"]
               {[ "Tool" ]}.
Proof.
  pose proof (@RegisterMetadataTags_keeps_None_out TextNames
                ["Author"; "None"; "none"] {[ "Tool" ]}) as Hkeep.
  split.
  - vm_compute. reflexivity.
  - intros Hin. apply Hkeep in Hin; [discriminate Hin|].
    intros t Ht. apply elem_of_singleton in Ht as ->. reflexivity.
Defined.

(** ** Viewport picking: which client answers, and what is logged *)

Section ViewportOrder.
Context {FVector FSceneView : Type}.
Variable Ed : Editor FVector FSceneView.
Implicit Types (VPClient : FLevelEditorViewportClient FSceneView)
               (Clients : list (FLevelEditorViewportClient FSceneView))
               (Under : SWidget).

Lemma WidgetUnderMouse_Some Under :
  WidgetUnderMouse Ed = Some Under →
  ∃ pos, GetPlatformCursor Ed = Some pos
         ∧ last (LocateWindowUnderMouse Ed pos) = Some Under.
Proof.
  unfold WidgetUnderMouse. destruct (GetPlatformCursor Ed) as [pos|]; [|done].
  intros Hl. by exists pos.
Qed.

Lemma ScanViewportClients_app Under Clients1 Clients2 :
  ScanViewportClients Ed Under (Clients1 ++ Clients2)%list
  = match ScanViewportClients Ed Under Clients1 with
    | NonePicked => ScanViewportClients Ed Under Clients2
    | ended => ended
    end.
Proof.
  induction Clients1 as [|c Clients1 IH]; simpl; [done|].
  destruct (ViewportWidgetOf c) as [f|w]; [done|].
  destruct (bool_decide (w = Some (WidgetId Under)));
    [destruct (CalcSceneView c)|]; try done.
  destruct (Viewport c) as [vp|]; [|done]. simpl.
  by destruct (DeprojectFVector2D Ed _ _).
Qed.

Lemma ScanViewportClients_skip Under Clients :
  WidgetUnderMouse Ed = Some Under →
  (∀ VPClient, VPClient ∈ Clients → ∃ w, ViewportWidgetOf VPClient = inr w) →
  (∀ VPClient SceneView, VPClient ∈ Clients → ¬ Serves Ed VPClient SceneView) →
  ScanViewportClients Ed Under Clients = NonePicked.
Proof.
  intros Hu. induction Clients as [|c Clients IH]; simpl;
    intros Hlive Hnone; [done|].
  destruct (Hlive c) as [w Hw]; [apply elem_of_cons; by left|].
  rewrite Hw.
  assert (ScanViewportClients Ed Under Clients = NonePicked) as Hrest.
  { apply IH.
    - intros c' Hin. apply Hlive, elem_of_cons. by right.
    - intros c' sv' Hin. apply Hnone, elem_of_cons. by right. }
  destruct (bool_decide (w = Some (WidgetId Under))) eqn:Hown; [|done].
  destruct (CalcSceneView c) as [sv|] eqn:Hv; [|done].
  destruct (Hnone c sv); [apply elem_of_cons; by left|].
  split; [|done]. rewrite (IsUnderMouse_Owns Ed Under c Hu).
  unfold Owns. by rewrite Hw.
Qed.

(** When several clients own the widget under the mouse, the first one in
    the editor's list that yields a scene view answers: clients before it
    that are elsewhere or have no scene view are passed over (their pointer
    chains are read, so they must be there), clients after it are not
    looked at, and nothing is logged. *)
Theorem GetEditorViewportMousePositionWS_first_client
    (c : ViewportCall FVector) Under Before VPClient After SceneView vp :
  WidgetUnderMouse Ed = Some Under →
  FString_eq (GetTypeAsString Under) "SViewport" = true →
  GetLevelViewportClients Ed = (Before ++ VPClient :: After)%list →
  (∀ Earlier, Earlier ∈ Before → ∃ w, ViewportWidgetOf Earlier = inr w) →
  (∀ Earlier Other, Earlier ∈ Before → ¬ Serves Ed Earlier Other) →
  Serves Ed VPClient SceneView →
  Viewport VPClient = Some vp →
  GetEditorViewportMousePositionWS Ed c
  = Returned true
      {| WorldOrigin := fst (DeprojectFVector2D Ed SceneView (GetMousePos vp));
         WorldDirection :=
           snd (DeprojectFVector2D Ed SceneView (GetMousePos vp));
         LogTemp := LogTemp c |}.
Proof.
  intros Hu Ht Hl Hlive Hbefore [Hown Hv] Hvp.
  destruct (WidgetUnderMouse_Some Under Hu) as (pos & Hcur & Hlast).
  rewrite (IsUnderMouse_Owns Ed Under VPClient Hu) in Hown.
  unfold Owns in Hown.
  destruct (ViewportWidgetOf VPClient) as [f|w] eqn:Hw; [discriminate|].
  unfold GetEditorViewportMousePositionWS.
  rewrite Hcur, Hlast. simpl. rewrite Ht, Hl, ScanViewportClients_app. simpl.
  rewrite (ScanViewportClients_skip Under Before Hu Hlive Hbefore). simpl.
  rewrite Hw, Hown, Hv, Hvp. destruct (GetMousePos vp) as [x y]. simpl.
  by destruct (DeprojectFVector2D Ed SceneView (x, y)).
Qed.

(** The function logs exactly when it returns false, and then one warning:
    the one naming the widget's type when that is not [SViewport], the one
    about no valid viewport otherwise.  A call that returns true or does
    not return leaves the log as it was. *)
Theorem GetEditorViewportMousePositionWS_log (c : ViewportCall FVector) :
  let r := GetEditorViewportMousePositionWS Ed c in
  (∀ c', r = Returned true c' → LogTemp c' = LogTemp c)
  ∧ (∀ c', r = Returned false c' → is_Some (WidgetUnderMouse Ed))
  ∧ (∀ c' Under, r = Returned false c' → WidgetUnderMouse Ed = Some Under →
       FString_eq (GetTypeAsString Under) "SViewport" = false →
       LogTemp c'
       = (LogTemp c ++
          [("Mouse is not over a viewport -- Detected UI element under mouse: "
             ++ GetTypeAsString Under)%string])%list)
  ∧ (∀ c' Under, r = Returned false c' → WidgetUnderMouse Ed = Some Under →
       FString_eq (GetTypeAsString Under) "SViewport" = true →
       LogTemp c'
       = (LogTemp c ++
          ["Could not find a valid viewport under the mouse"%string])%list)
  ∧ (∀ b c', r = Returned b c' →
       b = true ↔ length (LogTemp c') = length (LogTemp c))
  ∧ (∀ f c', r = Aborted f c' → LogTemp c' = LogTemp c).
Proof.
  unfold GetEditorViewportMousePositionWS, WidgetUnderMouse.
  destruct (GetPlatformCursor Ed) as [pos|]; simpl.
  2: { split_and!; try discriminate. by intros f c' [= <- <-]. }
  destruct (last (LocateWindowUnderMouse Ed pos)) as [u|]; simpl.
  2: { split_and!; try discriminate. by intros f c' [= <- <-]. }
  destruct (FString_eq (GetTypeAsString u) "SViewport") eqn:Ht; simpl.
  - destruct (ScanViewportClients Ed u (GetLevelViewportClients Ed))
      as [o d| |f]; split_and!; try discriminate; try (by eauto).
    + by intros c' [= <-].
    + by intros b c' [= <- <-].
    + intros c' u' _ [= <-]. congruence.
    + by intros c' u' [= <-] [= <-] _.
    + intros b c' [= <- <-]. simpl. rewrite length_app. simpl.
      split; [done|lia].
    + by intros f' c' [= <- <-].
  - split_and!; try discriminate; try (by eauto).
    + by intros c' u' [= <-] [= <-] _.
    + intros c' u' _ [= <-]. congruence.
    + intros b c' [= <- <-]. simpl. rewrite length_app. simpl.
      split; [done|lia].
Qed.

End ViewportOrder.

(** A widget that is not an [SViewport] ends the call before any viewport
    client is consulted: the answer is false, and the same for any list of
    clients and any deprojection. *)
Theorem GetEditorViewportMousePositionWS_other_widget
    {FVector FSceneView : Type} (Ed Ed' : Editor FVector FSceneView)
    (c : ViewportCall FVector) (Under : SWidget) :
  WidgetUnderMouse Ed' = WidgetUnderMouse Ed →
  WidgetUnderMouse Ed = Some Under →
  FString_eq (GetTypeAsString Under) "SViewport" = false →
  GetEditorViewportMousePositionWS Ed' c = GetEditorViewportMousePositionWS Ed c
  ∧ ∃ c', GetEditorViewportMousePositionWS Ed c = Returned false c'.
Proof.
  intros Hw Hu Ht. rewrite Hu in Hw.
  destruct (WidgetUnderMouse_Some Ed Under Hu) as (pos & Hcur & Hlast).
  destruct (WidgetUnderMouse_Some Ed' Under Hw) as (pos' & Hcur' & Hlast').
  unfold GetEditorViewportMousePositionWS.
  rewrite Hcur, Hlast, Hcur', Hlast'. simpl. rewrite Ht. simpl. eauto.
Qed.

Lemma GetEditorViewportMousePositionWS_first_client_studio :
  GetEditorViewportMousePositionWS DemoEditor.Studio DemoEditor.Call
  = Returned true {| WorldOrigin := (40, 30, 100); WorldDirection := (0, 0, 1);
                     LogTemp := [] |}.
Proof.
  apply (GetEditorViewportMousePositionWS_first_client DemoEditor.Studio
           DemoEditor.Call {| WidgetId := 3; GetTypeAsString := "SViewport" |}
           [DemoEditor.Side; DemoEditor.Closing]
           DemoEditor.Perspective [DemoEditor.Top] 100
           {| GetMousePos := (40, 30) |}).
  - reflexivity.
  - reflexivity.
  - reflexivity.
  - intros Earlier Hin.
    apply elem_of_cons in Hin as [->|Hin]; [by eexists|].
    apply elem_of_cons in Hin as [->|Hin]; [by eexists|].
    inversion Hin.
  - intros Earlier Other Hin [Hu Hv].
    apply elem_of_cons in Hin as [->|Hin]; [discriminate Hu|].
    apply elem_of_cons in Hin as [->|Hin]; [discriminate Hv|].
    inversion Hin.
  - split; reflexivity.
  - reflexivity.
Defined.

Lemma GetEditorViewportMousePositionWS_other_widget_browser :
  GetEditorViewportMousePositionWS
    {| GetPlatformCursor := GetPlatformCursor DemoEditor.Browser;
       LocateWindowUnderMouse := LocateWindowUnderMouse DemoEditor.Browser;
       GetLevelViewportClients := [DemoEditor.Torn];
       DeprojectFVector2D := DemoEditor.Deproject |} DemoEditor.Call
  = GetEditorViewportMousePositionWS DemoEditor.Browser DemoEditor.Call
  ∧ ∃ c', GetEditorViewportMousePositionWS DemoEditor.Browser DemoEditor.Call
          = Returned false c'.
Proof.
  apply (GetEditorViewportMousePositionWS_other_widget DemoEditor.Browser _
           DemoEditor.Call
           {| WidgetId := 9; GetTypeAsString := "SContentBrowser" |}).
  - reflexivity.
  - reflexivity.
  - reflexivity.
Defined.

(** ** Thumbnails: what a call leaves behind *)

Section ThumbnailEffects.
Context `{FNameTable}.
Variable E : Engine.
Implicit Types (a : FAssetData) (d : option UTexture2D) (s : Frame)
               (t : FObjectThumbnail).

(** Open both functions down to the engine calls. *)
Ltac unroll :=
  unfold RenderAssetThumbnailToDynamicMaterial,
    AddExistingAssetThumbnailToDynamicMaterial, CachedOrDefault, Regenerate,
    PopulateAndBind, PrepareTransient, GenerateThumbnail, ValidateAsset,
    BindCachedThumbnail, ImportBufferAsTexture2D, CreateTransient,
    NewObject, AddToRoot, WritePastMip, Memcpy, SetTextureParameterValue,
    SetIsValid,
    SetImageHeight, SetImageWidth, note, modify, get, crash, bind, ret,
    BoundTexture, Regenerates, Usable, Allocated, HasCached, LiveThumbnail,
    CachedThumbnail;
  rewrite ?PackageExists_eq.

(** Every way a call on a package that is on disk can go. *)
Ltac on_disk file Hf :=
  destruct (GenerateThumbnailForObjectToSaveToDisk E (GetAsset E _))
    as [?t|]; simpl;
  [destruct ((GetImageWidth _ <? 1) || (GetImageHeight _ <? 1)) eqn:?; simpl|];
  (destruct (CanCreateTransient E _ _) eqn:?; simpl;
   rewrite ?PackageExists_eq, ?Hf; simpl;
   [try (destruct (LoadThumbnailsFromPackage E file _ !! _) eqn:?; simpl;
         [destruct (DecodeBuffer E _) as [[[? ?] ?]|] eqn:?; simpl|])
   |destruct (LoadThumbnailsFromPackage E file _ !! _) eqn:?; simpl;
      [destruct (DecodeBuffer E _) as [[[? ?] ?]|] eqn:?; simpl|]]).

(** Both functions write the material's [texture] parameter and no other,
    however the call ends. *)
Theorem texture_parameter_only a d s (Other : FName) :
  Other ≠ MakeFName "texture" →
  TextureParameterValues
    (DynamicMaterial (frame_of (RenderAssetThumbnailToDynamicMaterial E a d s)))
    !! Other
  = TextureParameterValues (DynamicMaterial s) !! Other
  ∧ TextureParameterValues
      (DynamicMaterial
         (frame_of (AddExistingAssetThumbnailToDynamicMaterial E a d s)))
      !! Other
    = TextureParameterValues (DynamicMaterial s) !! Other.
Proof.
  intros Hp. split.
  - unroll. destruct (PackageFile E a) as [file|] eqn:Hf; simpl.
    + on_disk file Hf; rewrite ?lookup_insert_ne; done.
    + rewrite PackageExists_eq, Hf. simpl. by rewrite lookup_insert_ne.
  - unroll. destruct (PackageFile E a) as [file|] eqn:Hf; simpl.
    + destruct (LoadThumbnailsFromPackage E file _ !! _); simpl;
        [destruct (DecodeBuffer E _) as [[[? ?] ?]|]; simpl|];
        rewrite ?lookup_insert_ne; done.
    + by rewrite lookup_insert_ne.
Qed.

(** The flag of the rendering function is true exactly when the package is
    on disk and a generated or a cached thumbnail was found; the call has
    then returned, and the width and height are those of that thumbnail:
    the live one when regeneration succeeded, the cached one otherwise. *)
Theorem Render_flag_and_size a d s :
  let r := RenderAssetThumbnailToDynamicMaterial E a d s in
  IsValid (frame_of r)
  = bool_decide (is_Some (PackageFile E a))
    && (Regenerates E a || HasCached E a)
  ∧ (IsValid (frame_of r) = true → returned r = true)
  ∧ (∀ t, is_Some (PackageFile E a) → Regenerates E a = true →
          LiveThumbnail E a = Some t →
          ImageWidth (frame_of r) = GetImageWidth t
          ∧ ImageHeight (frame_of r) = GetImageHeight t)
  ∧ (∀ file t, PackageFile E a = Some file → Regenerates E a = false →
               CachedThumbnail E a file = Some t →
               ImageWidth (frame_of r) = GetImageWidth t
               ∧ ImageHeight (frame_of r) = GetImageHeight t).
Proof.
  unroll. destruct (PackageFile E a) as [file|] eqn:Hf; simpl.
  - on_disk file Hf; split_and!; try done;
      try (by intros ? [? [=]]); try (by intros ? _ _ [= <-]);
      try (intros ? ? [= <-] _ ?; by simplify_eq).
  - rewrite PackageExists_eq, Hf. simpl. by split_and!.
Qed.

(** The rendering function on a package that is on disk, cannot be
    regenerated and holds a cached thumbnail: the call returns valid with
    the cached size and roots nothing.  The bound texture is what the codec
    decodes from the compressed cached pixels; when the codec fails a null
    texture is bound and the flag is true all the same. *)
Theorem Render_cached_fallback a d s file t :
  PackageFile E a = Some file →
  Regenerates E a = false →
  CachedThumbnail E a file = Some t →
  ∃ s',
    RenderAssetThumbnailToDynamicMaterial E a d s = Ok tt s'
    ∧ IsValid s' = true
    ∧ ImageWidth s' = GetImageWidth t
    ∧ ImageHeight s' = GetImageHeight t
    ∧ RootSet s' = RootSet s
    ∧ match DecodeBuffer E (PNGCompress E (GetUncompressedImageData t)
                              (GetImageWidth t) (GetImageHeight t)) with
      | Some (w, h, pixels) =>
          ∃ tex, BoundTexture s' = Some (Some tex)
                 ∧ SizeX tex = w ∧ SizeY tex = h ∧ Mip0 tex = pixels
                 ∧ bNotOfflineProcessed tex = false
                 ∧ (NextObject s ≤ ObjectId tex < NextObject s')%nat
      | None => BoundTexture s' = Some None
      end.
Proof.
  intros Hf. unroll. rewrite Hf. simpl. intros Hr Hc. revert Hr.
  destruct (GenerateThumbnailForObjectToSaveToDisk E (GetAsset E a))
    as [g|]; simpl;
    [destruct ((GetImageWidth g <? 1) || (GetImageHeight g <? 1)); simpl|];
    (destruct (CanCreateTransient E _ _); simpl; try discriminate; intros _;
     rewrite PackageExists_eq, Hf; simpl; rewrite Hc; simpl;
     destruct (DecodeBuffer E _) as [[[w h] px]|]; simpl;
     (eexists; split; [reflexivity|]); simpl;
     (split_and!; try reflexivity);
     rewrite ?lookup_insert_eq; try done;
     eexists; (split; [reflexivity|]); simpl; split_and!; try done; lia).
Qed.

(** The existing-thumbnail function with a codec that gives back what it
    was given: the call returns with the cached size, leaves the flag alone
    and binds a new, unrooted texture of exactly that size holding the
    cached pixels. *)
Theorem AddExisting_cached_round_trip a d s file t :
  PackageFile E a = Some file →
  CachedThumbnail E a file = Some t →
  DecodeBuffer E (PNGCompress E (GetUncompressedImageData t)
                    (GetImageWidth t) (GetImageHeight t))
  = Some (GetImageWidth t, GetImageHeight t, GetUncompressedImageData t) →
  ∃ tex s',
    AddExistingAssetThumbnailToDynamicMaterial E a d s = Ok tt s'
    ∧ IsValid s' = IsValid s
    ∧ ImageWidth s' = GetImageWidth t
    ∧ ImageHeight s' = GetImageHeight t
    ∧ BoundTexture s' = Some (Some tex)
    ∧ SizeX tex = ImageWidth s'
    ∧ SizeY tex = ImageHeight s'
    ∧ Mip0 tex = GetUncompressedImageData t
    ∧ ObjectId tex = NextObject s
    ∧ NextObject s' = S (NextObject s)
    ∧ RootSet s' = RootSet s.
Proof.
  intros Hf Hc Hcodec. unfold CachedThumbnail in Hc. unroll.
  rewrite Hf. simpl. rewrite Hc. simpl.
  rewrite Hcodec. simpl. eexists _, _. split; [reflexivity|]. simpl.
  do 3 (split; [reflexivity|]). split; [apply lookup_insert_eq|].
  simpl. by split_and!.
Qed.

(** What the two functions root.  The rendering function calls [AddToRoot]
    when the package is on disk and regeneration succeeds, and then on the
    texture it generated and bound; on every other path the root set is as
    it was, so a texture imported from the cached thumbnail is bound without
    being rooted.  The existing-thumbnail function never roots anything. *)
Theorem thumbnail_root_set a d s :
  let r := RenderAssetThumbnailToDynamicMaterial E a d s in
  let r' := AddExistingAssetThumbnailToDynamicMaterial E a d s in
  (bool_decide (is_Some (PackageFile E a)) && Regenerates E a = true →
   ∃ tex, BoundTexture (frame_of r) = Some (Some tex)
          ∧ RootSet (frame_of r) = ObjectId tex :: RootSet s)
  ∧ (bool_decide (is_Some (PackageFile E a)) && Regenerates E a = false →
     RootSet (frame_of r) = RootSet s)
  ∧ RootSet (frame_of r') = RootSet s.
Proof.
  unroll. destruct (PackageFile E a) as [file|] eqn:Hf; simpl.
  - split; [|split].
    + on_disk file Hf; try discriminate; intros _;
        rewrite lookup_insert_eq; by eexists.
    + on_disk file Hf; done.
    + destruct (LoadThumbnailsFromPackage E file _ !! _); simpl;
        [destruct (DecodeBuffer E _) as [[[? ?] ?]|]; simpl|]; done.
  - rewrite PackageExists_eq, Hf. simpl. by split_and!.
Qed.

(** When the live thumbnail is unusable but a 1x1 transient texture can be
    allocated, the rendering function creates that texture and drops it: it
    is not rooted, and the texture a returning call has bound is a later
    object. *)
Theorem Render_discarded_texture a d s file :
  PackageFile E a = Some file →
  Usable E a = false →
  CanCreateTransient E 1 1 = true →
  let r := RenderAssetThumbnailToDynamicMaterial E a d s in
  (NextObject s < NextObject (frame_of r))%nat
  ∧ RootSet (frame_of r) = RootSet s
  ∧ (returned r = true →
     ∀ tex, BoundTexture (frame_of r) = Some (Some tex) →
            ObjectId tex = S (NextObject s)).
Proof.
  intros Hf. unroll. rewrite Hf. simpl. intros Hu Hc. revert Hu.
  destruct (GenerateThumbnailForObjectToSaveToDisk E (GetAsset E a))
    as [g|]; simpl;
    [destruct ((GetImageWidth g <? 1) || (GetImageHeight g <? 1)); simpl;
       [|discriminate]|];
    intros _; rewrite Hc; simpl; rewrite PackageExists_eq, Hf; simpl;
    (destruct (LoadThumbnailsFromPackage E file _ !! _); simpl;
     [destruct (DecodeBuffer E _) as [[[? ?] ?]|]; simpl|]);
    (split_and!; [lia|done|]); try discriminate;
    rewrite lookup_insert_eq; by intros _ tex [= <-].
Qed.


(** When regeneration yields nothing, the rendering function ends as the
    existing-thumbnail function does: both return or neither does, and on
    return the width, the height and the picture bound are the same.  They
    differ in the flag, which only the rendering function sets. *)
Theorem Render_falls_back_like_AddExisting a d s :
  bool_decide (is_Some (PackageFile E a)) && Regenerates E a = false →
  let r := RenderAssetThumbnailToDynamicMaterial E a d s in
  let r' := AddExistingAssetThumbnailToDynamicMaterial E a d s in
  returned r = returned r'
  ∧ IsValid (frame_of r') = IsValid s
  ∧ (returned r = true →
     ImageWidth (frame_of r) = ImageWidth (frame_of r')
     ∧ ImageHeight (frame_of r) = ImageHeight (frame_of r')
     ∧ Picture (BoundTexture (frame_of r)) = Picture (BoundTexture (frame_of r'))
     ∧ IsValid (frame_of r) = bool_decide (is_Some (PackageFile E a))).
Proof.
  unroll. destruct (PackageFile E a) as [file|] eqn:Hf; simpl.
  - destruct (GenerateThumbnailForObjectToSaveToDisk E (GetAsset E a))
      as [g|]; simpl;
      [destruct ((GetImageWidth g <? 1) || (GetImageHeight g <? 1)); simpl|];
      (destruct (CanCreateTransient E _ _); simpl; try discriminate; intros _;
       rewrite PackageExists_eq, Hf; simpl;
       (destruct (LoadThumbnailsFromPackage E file _ !! _); simpl;
        [destruct (DecodeBuffer E _) as [[[? ?] ?]|]; simpl|]);
       (split_and!; try done); rewrite !lookup_insert_eq; done).
  - intros _. rewrite PackageExists_eq, Hf. simpl.
    by split_and!.
Qed.

(** A package name that reads None, in any letter case, is never looked
    up: whatever the engine would answer, both functions bind the default
    and leave the width and height alone. *)
Theorem None_package_never_looked_up a d s :
  FString_eq (ToString (PackageName a)) "None" = true →
  PackageFile E a = None
  ∧ (∃ s', RenderAssetThumbnailToDynamicMaterial E a d s = Ok tt s'
           ∧ IsValid s' = false
           ∧ BoundTexture s' = Some d
           ∧ ImageWidth s' = ImageWidth s
           ∧ ImageHeight s' = ImageHeight s)
  ∧ (∃ s', AddExistingAssetThumbnailToDynamicMaterial E a d s = Ok tt s'
           ∧ IsValid s' = IsValid s
           ∧ BoundTexture s' = Some d
           ∧ ImageWidth s' = ImageWidth s
           ∧ ImageHeight s' = ImageHeight s).
Proof.
  intros Hn. assert (PackageFile E a = None) as Hf.
  { unfold PackageFile. by rewrite Hn. }
  split; [done|]. split.
  - destruct (Render_not_on_disk E a d s Hf) as (s' & ? & ? & ? & ? & ? & _).
    exists s'. by split_and!.
  - unroll. rewrite Hf. simpl. eexists. split; [reflexivity|]. simpl.
    split_and!; try done. apply lookup_insert_eq.
Qed.

(** A usable live thumbnail makes the rendering function ignore the
    package's cached thumbnails and the image codec: two engines that agree
    on storage, loading, rendering and allocation give the same call. *)
Theorem Render_regenerated_ignores_cache (E' : Engine) a d s :
  (∀ package, DoesPackageExist E' package = DoesPackageExist E package) →
  (∀ asset, GetAsset E' asset = GetAsset E asset) →
  (∀ object, GenerateThumbnailForObjectToSaveToDisk E' object
             = GenerateThumbnailForObjectToSaveToDisk E object) →
  (∀ w h, CanCreateTransient E' w h = CanCreateTransient E w h) →
  is_Some (PackageFile E a) →
  Regenerates E a = true →
  RenderAssetThumbnailToDynamicMaterial E' a d s
  = RenderAssetThumbnailToDynamicMaterial E a d s.
Proof.
  intros Hd Hg Hgen Hc [file Hf].
  assert (PackageFile E' a = Some file) as Hf'.
  { unfold PackageFile in *. by rewrite Hd. }
  unroll. rewrite Hf, Hf'. simpl. rewrite Hg, Hgen.
  destruct (GenerateThumbnailForObjectToSaveToDisk E (GetAsset E a))
    as [g|]; simpl; [|discriminate].
  destruct ((GetImageWidth g <? 1) || (GetImageHeight g <? 1)); simpl;
    [discriminate|].
  rewrite Hc. by intros ->.
Qed.

(** For an asset that is not on disk nothing is rendered, allocated or
    loaded: two engines that agree on storage give the same calls. *)
Theorem missing_asset_consults_storage_only (E' : Engine) a d s :
  (∀ package, DoesPackageExist E' package = DoesPackageExist E package) →
  PackageFile E a = None →
  RenderAssetThumbnailToDynamicMaterial E' a d s
  = RenderAssetThumbnailToDynamicMaterial E a d s
  ∧ AddExistingAssetThumbnailToDynamicMaterial E' a d s
    = AddExistingAssetThumbnailToDynamicMaterial E a d s.
Proof.
  intros Hd Hf.
  assert (PackageFile E' a = None) as Hf'.
  { unfold PackageFile in *. by rewrite Hd. }
  unroll. rewrite Hf, Hf'. simpl. by rewrite !PackageExists_eq, Hf, Hf'.
Qed.

End ThumbnailEffects.

(** ** Further runs on the content folder *)

Lemma texture_parameter_only_normal :
  TextureParameterValues
    (DynamicMaterial
       (frame_of (RenderAssetThumbnailToDynamicMaterial Demo.Content
                    (Demo.Asset "/Game/Rock") (Some Demo.DefaultTexture)
                    DemoEngines.Lit)))
    !! "normal"
  = Some (Some Demo.DefaultTexture)
  ∧ TextureParameterValues
      (DynamicMaterial
         (frame_of (AddExistingAssetThumbnailToDynamicMaterial Demo.Content
                      (Demo.Asset "/Game/Rock") (Some Demo.DefaultTexture)
                      DemoEngines.Lit)))
      !! "normal"
    = Some (Some Demo.DefaultTexture).
Proof.
  apply (@texture_parameter_only TextNames Demo.Content
           (Demo.Asset "/Game/Rock") (Some Demo.DefaultTexture)
           DemoEngines.Lit "normal").
  discriminate.
Defined.

Lemma Render_cached_fallback_lamp :
  ∃ s',
    RenderAssetThumbnailToDynamicMaterial Demo.Headless
      (Demo.Asset "/Game/Lamp") (Some Demo.DefaultTexture) Demo.Entry
    = Ok tt s'
    ∧ IsValid s' = true
    ∧ ImageWidth s' = 3
    ∧ ImageHeight s' = 2
    ∧ RootSet s' = []
    ∧ ∃ tex, BoundTexture s' = Some (Some tex)
             ∧ SizeX tex = 3 ∧ SizeY tex = 2 ∧ Mip0 tex = Demo.Pixels 6
             ∧ bNotOfflineProcessed tex = false
             ∧ (10 ≤ ObjectId tex < NextObject s')%nat.
Proof.
  apply (@Render_cached_fallback TextNames Demo.Headless
           (Demo.Asset "/Game/Lamp") (Some Demo.DefaultTexture) Demo.Entry
           "/Game/Lamp.uasset" Demo.Stored); reflexivity.
Defined.

Lemma AddExisting_cached_round_trip_rock :
  ∃ tex s',
    AddExistingAssetThumbnailToDynamicMaterial Demo.Content
      (Demo.Asset "/Game/Rock") (Some Demo.DefaultTexture) Demo.Entry
    = Ok tt s'
    ∧ IsValid s' = false
    ∧ ImageWidth s' = 3
    ∧ ImageHeight s' = 2
    ∧ BoundTexture s' = Some (Some tex)
    ∧ SizeX tex = ImageWidth s'
    ∧ SizeY tex = ImageHeight s'
    ∧ Mip0 tex = Demo.Pixels 6
    ∧ ObjectId tex = 10%nat
    ∧ NextObject s' = 11%nat
    ∧ RootSet s' = [].
Proof.
  apply (@AddExisting_cached_round_trip TextNames Demo.Content
           (Demo.Asset "/Game/Rock") (Some Demo.DefaultTexture) Demo.Entry
           "/Game/Rock.uasset" Demo.Stored); reflexivity.
Defined.

Lemma Render_discarded_texture_lamp :
  let r := RenderAssetThumbnailToDynamicMaterial Demo.Flat
             (Demo.Asset "/Game/Lamp") (Some Demo.DefaultTexture) Demo.Entry in
  (10 < NextObject (frame_of r))%nat
  ∧ RootSet (frame_of r) = []
  ∧ (returned r = true →
     ∀ tex, BoundTexture (frame_of r) = Some (Some tex) →
            ObjectId tex = 11%nat).
Proof.
  apply (@Render_discarded_texture TextNames Demo.Flat
           (Demo.Asset "/Game/Lamp") (Some Demo.DefaultTexture) Demo.Entry
           "/Game/Lamp.uasset"); reflexivity.
Defined.


Lemma Render_falls_back_like_AddExisting_lamp :
  let r := RenderAssetThumbnailToDynamicMaterial Demo.Headless
             (Demo.Asset "/Game/Lamp") (Some Demo.DefaultTexture) Demo.Entry in
  let r' := AddExistingAssetThumbnailToDynamicMaterial Demo.Headless
              (Demo.Asset "/Game/Lamp") (Some Demo.DefaultTexture) Demo.Entry in
  returned r = returned r'
  ∧ IsValid (frame_of r') = false
  ∧ (returned r = true →
     ImageWidth (frame_of r) = ImageWidth (frame_of r')
     ∧ ImageHeight (frame_of r) = ImageHeight (frame_of r')
     ∧ Picture (BoundTexture (frame_of r)) = Picture (BoundTexture (frame_of r'))
     ∧ IsValid (frame_of r) = true).
Proof.
  apply (@Render_falls_back_like_AddExisting TextNames Demo.Headless
           (Demo.Asset "/Game/Lamp") (Some Demo.DefaultTexture) Demo.Entry).
  reflexivity.
Defined.

Lemma None_package_never_looked_up_literal :
  DoesPackageExist DemoEngines.Literal "NONE" = Some "NONE.uasset"
  ∧ PackageFile DemoEngines.Literal (Demo.Asset "NONE") = None
  ∧ (∃ s', RenderAssetThumbnailToDynamicMaterial DemoEngines.Literal
             (Demo.Asset "NONE") (Some Demo.DefaultTexture) Demo.Entry
           = Ok tt s'
           ∧ IsValid s' = false
           ∧ BoundTexture s' = Some (Some Demo.DefaultTexture)
           ∧ ImageWidth s' = 0
           ∧ ImageHeight s' = 0)
  ∧ (∃ s', AddExistingAssetThumbnailToDynamicMaterial DemoEngines.Literal
             (Demo.Asset "NONE") (Some Demo.DefaultTexture) Demo.Entry
           = Ok tt s'
           ∧ IsValid s' = false
           ∧ BoundTexture s' = Some (Some Demo.DefaultTexture)
           ∧ ImageWidth s' = 0
           ∧ ImageHeight s' = 0).
Proof.
  split; [reflexivity|].
  apply (@None_package_never_looked_up TextNames DemoEngines.Literal
           (Demo.Asset "NONE") (Some Demo.DefaultTexture) Demo.Entry).
  reflexivity.
Defined.

Lemma Render_regenerated_ignores_cache_rock :
  RenderAssetThumbnailToDynamicMaterial DemoEngines.Uncached
    (Demo.Asset "/Game/Rock") (Some Demo.DefaultTexture) Demo.Entry
  = RenderAssetThumbnailToDynamicMaterial Demo.Content
      (Demo.Asset "/Game/Rock") (Some Demo.DefaultTexture) Demo.Entry.
Proof.
  apply (@Render_regenerated_ignores_cache TextNames Demo.Content
           DemoEngines.Uncached (Demo.Asset "/Game/Rock")
           (Some Demo.DefaultTexture) Demo.Entry).
  - reflexivity.
  - reflexivity.
  - reflexivity.
  - reflexivity.
  - eexists. reflexivity.
  - reflexivity.
Defined.

Lemma missing_asset_consults_storage_only_gone :
  RenderAssetThumbnailToDynamicMaterial DemoEngines.Uncached
    (Demo.Asset "/Game/Gone") (Some Demo.DefaultTexture) Demo.Entry
  = RenderAssetThumbnailToDynamicMaterial Demo.Content
      (Demo.Asset "/Game/Gone") (Some Demo.DefaultTexture) Demo.Entry
  ∧ AddExistingAssetThumbnailToDynamicMaterial DemoEngines.Uncached
      (Demo.Asset "/Game/Gone") (Some Demo.DefaultTexture) Demo.Entry
    = AddExistingAssetThumbnailToDynamicMaterial Demo.Content
        (Demo.Asset "/Game/Gone") (Some Demo.DefaultTexture) Demo.Entry.
Proof.
  apply (@missing_asset_consults_storage_only TextNames Demo.Content
           DemoEngines.Uncached (Demo.Asset "/Game/Gone")
           (Some Demo.DefaultTexture) Demo.Entry).
  - reflexivity.
  - reflexivity.
Defined.
